(** * corenet/engine/utils.py: training-loop utilities

    A shallow embedding of the helpers of [corenet.engine.utils]
    ([autocast_fn], [get_batch_size], [log_metrics], [flatten],
    [step_log_metrics], [get_log_writers]) together with the properties
    their specification states about them.

    The functions are embedded on values: a call is a function from its
    arguments to the events it performs on its collaborators and to its
    outcome, a value or an exception.  The four functions that receive
    lists and dictionaries are embedded a second time on a store of
    objects, to state what they update; the two embeddings are related at
    the end. *)

From Stdlib Require Import ZArith List String Ascii Bool Lia.
From Stdlib Require Import PrimFloat DecimalString.
From stdpp Require Import base option list gmap.

Import ListNotations.
Set Warnings "-register-all".
Local Open Scope string_scope.
Local Open Scope list_scope.

(** * Part I: the embedding *)

(** ** Python values *)

(** A [torch.Tensor]: its [shape] and its elements in row-major order. *)
Record Tensor := mkTensor {
  shape : list Z;
  elems : list float
}.

(** The values the functions of the module receive.  A [dict] is the list
    of its items in insertion order, which is the order of the loops over
    it and decides which of two items with the same key [dict(items)]
    keeps; its keys are strings, as in [dict[str, Any]]. *)
Inductive pyval :=
| VNone
| VBool (b : bool)
| VInt (n : Z)
| VFloat (f : float)
| VStr (s : string)
| VList (l : list pyval)
| VDict (d : list (string * pyval))
| VTensor (t : Tensor).

(** The exception classes that occur in the module.  Messages are not
    modelled.  [SystemExit] and [KeyboardInterrupt] derive from
    [BaseException] only; [ModuleNotFoundError] derives from [ImportError]. *)
Inductive exn :=
| NotImplementedError
| IndexError
| KeyError
| TypeError
| RuntimeError
| AttributeError
| ImportError
| ModuleNotFoundError
| OSError
| RecursionError
| SystemExit
| KeyboardInterrupt.

(** [isinstance(e, Exception)]. *)
Definition is_Exception (e : exn) : bool :=
  match e with
  | SystemExit | KeyboardInterrupt => false
  | _ => true
  end.

(** [isinstance(e, ImportError)]. *)
Definition is_ImportError (e : exn) : bool :=
  match e with
  | ImportError | ModuleNotFoundError => true
  | _ => false
  end.

(** [isinstance(e, ModuleNotFoundError)]. *)
Definition is_ModuleNotFoundError (e : exn) : bool :=
  match e with
  | ModuleNotFoundError => true
  | _ => false
  end.

(** The outcome of a call: a returned value or a raised exception. *)
Inductive result (A : Type) :=
| Ok (a : A)
| Raise (e : exn).
Arguments Ok {A} a.
Arguments Raise {A} e.

(** ** Dictionaries in insertion order *)

Module Dict.

(** [d[key]], as an option. *)
Fixpoint get {V} (key : string) (d : list (string * V)) : option V :=
  match d with
  | [] => None
  | (k, v) :: d' => if String.eqb key k then Some v else get key d'
  end.

(** [key in d]. *)
Definition mem {V} (key : string) (d : list (string * V)) : bool :=
  match get key d with Some _ => true | None => false end.

(** [d[key] = v]: an existing key keeps its position, a new one goes last. *)
Fixpoint set {V} (key : string) (v : V) (d : list (string * V)) : list (string * V) :=
  match d with
  | [] => [(key, v)]
  | (k, w) :: d' =>
      if String.eqb key k then (k, v) :: d' else (k, w) :: set key v d'
  end.

(** [dict(items)]: the items are inserted one after the other. *)
Definition of_items {V} (items : list (string * V)) : list (string * V) :=
  fold_left (fun d kv => set (fst kv) (snd kv) d) items [].

End Dict.

(** ** Builtins *)

(** [bool(t)] of a tensor: defined for a tensor of one element only. *)
Definition tensor_bool (t : Tensor) : result bool :=
  match elems t with
  | [x] => Ok (negb (PrimFloat.eqb x 0%float))
  | _ => Raise RuntimeError
  end.

(** The truth value of [v], as [if v] and [v or ...] take it. *)
Definition py_bool (v : pyval) : result bool :=
  match v with
  | VNone => Ok false
  | VBool b => Ok b
  | VInt n => Ok (negb (Z.eqb n 0))
  | VFloat f => Ok (negb (PrimFloat.eqb f 0%float))
  | VStr s => Ok (negb (String.eqb s ""))
  | VList l => Ok (match l with [] => false | _ => true end)
  | VDict d => Ok (match d with [] => false | _ => true end)
  | VTensor t => tensor_bool t
  end.

(** [isinstance(v, Number)]. *)
Definition is_Number (v : pyval) : bool :=
  match v with
  | VBool _ | VInt _ | VFloat _ => true
  | _ => false
  end.

(** [isinstance(v, MutableMapping)]. *)
Definition is_MutableMapping (v : pyval) : bool :=
  match v with
  | VDict _ => true
  | _ => false
  end.

(** [str(n)] of a natural number. *)
Definition str_of_nat (n : nat) : string :=
  NilZero.string_of_uint (Nat.to_uint n).

(** [a.endswith("/")]. *)
Definition ends_with_sep (a : string) : bool :=
  match String.get (String.length a - 1) a with
  | Some c => Ascii.eqb c "/"%char
  | None => false
  end.

(** [os.path.join(a, b)] for a relative [b] (POSIX). *)
Definition os_path_join (a b : string) : string :=
  if String.eqb a "" || ends_with_sep a then a ++ b else a ++ "/" ++ b.

(** ** The effects of the module *)

(** [torch.float16] and [torch.bfloat16]. *)
Inductive torch_dtype := float16 | bfloat16.

(** A call of [torch.cuda.amp.autocast] with its keyword arguments;
    [ac_dtype] is [None] when [dtype] is not passed. *)
Record autocast := Autocast {
  ac_enabled : bool;
  ac_dtype : option torch_dtype
}.

(** The logging backends [get_log_writers] constructs, with the arguments
    of their constructors. *)
Inductive log_writer :=
| SummaryWriter (log_dir comment : string)
| BoltLogger
| HubLogger (opts : list (string * pyval))
| FileLogger (fname : string).

(** What a call does to its collaborators, in the order it does it. *)
Inductive event :=
| AddScalar (name : string) (value : pyval) (step : Z)
| LoggerError (msg : string)
| LoggerLog (msg : string) (ex : option exn)
| Import (name : string)
| CreateDirectories (dir_path : string)
| New (w : log_writer).

(** A computation: the events it performed and its outcome. *)
Definition M (A : Type) : Type := (list event * result A)%type.

Definition ret {A} (a : A) : M A := ([], Ok a).

Definition bind {A B} (m : M A) (f : A -> M B) : M B :=
  match m with
  | (t, Ok a) => let (t', r) := f a in (t ++ t', r)
  | (t, Raise e) => (t, Raise e)
  end.

Definition lift {A} (r : result A) : M A := ([], r).

Definition emit (e : event) : M unit := ([e], Ok tt).

Definition raise {A} (e : exn) : M A := ([], Raise e).

Notation "x <- m ;; k" := (bind m (fun x => k))
  (at level 100, m at next level, right associativity).
Notation "m ;; k" := (bind m (fun _ => k))
  (at level 100, right associativity).

(** ** autocast_fn *)

Definition str_to_torch_dtype : list (string * torch_dtype) :=
  [("float16", float16); ("bfloat16", bfloat16)].

(** [str_to_torch_dtype[amp_precision]] for an [Optional[str]]: [None] is
    not a key. *)
Definition dtype_of (amp_precision : option string) : option torch_dtype :=
  match amp_precision with
  | Some s => Dict.get s str_to_torch_dtype
  | None => None
  end.

(** [str(amp_precision)]. *)
Definition str_of_precision (amp_precision : option string) : string :=
  match amp_precision with
  | Some s => s
  | None => "None"
  end.

Definition unsupported_dtype_msg (amp_precision : option string) : string :=
  "For Mixed-precision training, supported dtypes are ['float16', 'bfloat16']. Got: "
  ++ str_of_precision amp_precision.

Definition cuda_required_msg : string :=
  "For mixed-precision training, CUDA device is required.".

Section Autocast.

(** [corenet.utils.logger.error] is not part of the module: whether it
    returns or raises, and what, is left open. *)
Variable logger_error_raises : string -> option exn.

(** [torch.cuda.is_available()]. *)
Variable cuda_is_available : bool.

Definition logger_error (msg : string) : M unit :=
  emit (LoggerError msg) ;;
  match logger_error_raises msg with
  | Some e => raise e
  | None => ret tt
  end.

Definition autocast_fn (enabled : bool) (amp_precision : option string) : M autocast :=
  if enabled then
    (match dtype_of amp_precision with
     | None => logger_error (unsupported_dtype_msg amp_precision)
     | Some _ => ret tt
     end) ;;
    (if negb cuda_is_available then logger_error cuda_required_msg else ret tt) ;;
    match dtype_of amp_precision with
    | Some d => ret (Autocast enabled (Some d))
    | None => raise KeyError
    end
  else ret (Autocast false None).

End Autocast.

(** ** get_batch_size *)

(** [x.shape[0]]. *)
Definition shape_0 (t : Tensor) : result Z :=
  match shape t with
  | d :: _ => Ok d
  | [] => Raise IndexError
  end.

Definition modality_keys : list string := ["image"; "video"; "audio"].

(** The first key of [modality_keys] that is in the dictionary, as the loop
    [for key in ("image", "video", "audio"): if key in x: ...] finds it. *)
Definition first_modality_key {V} (x : list (string * V)) : option string :=
  find (fun key => Dict.mem key x) modality_keys.

(** The recursive call is made on the value of the chosen key; to keep the
    recursion structural the dictionary [sizes] binds every key of [x] to
    the outcome of [get_batch_size] on its value, and the chosen key is
    looked up there ([get_batch_size_eq] below is the source's form). *)
Fixpoint get_batch_size (x : pyval) : result Z :=
  match x with
  | VTensor t => shape_0 t
  | VDict d =>
      let sizes :=
        (fix values (d : list (string * pyval)) : list (string * result Z) :=
           match d with
           | [] => []
           | (k, v) :: d' => (k, get_batch_size v) :: values d'
           end) d in
      match first_modality_key sizes with
      | Some key =>
          match Dict.get key sizes with
          | Some r => r
          | None => Raise KeyError
          end
      | None => Raise NotImplementedError
      end
  | VList l => Ok (Z.of_nat (List.length l))
  | _ => Raise NotImplementedError
  end.

(** ** flatten *)

(** [parent_key + separator + key if parent_key else key]. *)
Definition new_key (parent_key separator key : string) : string :=
  if String.eqb parent_key "" then key else parent_key ++ separator ++ key.

(** What one item [(key, value)] of the loop adds to [items], [key] being
    its [new_key]: the items of [flatten(value, key, separator)] when
    [value] is a mapping, the item itself otherwise.  [flatten] is the
    mapping case ([flatten_eq] below is the source's form). *)
Fixpoint flatten_value (value : pyval) (key separator : string) : list (string * pyval) :=
  match value with
  | VDict dictionary =>
      let items :=
        (fix loop (d : list (string * pyval)) : list (string * pyval) :=
           match d with
           | [] => []
           | (k, v) :: d' => flatten_value v (new_key key separator k) separator ++ loop d'
           end) dictionary in
      Dict.of_items items
  | _ => [(key, value)]
  end.

Definition flatten (dictionary : list (string * pyval)) (parent_key separator : string)
  : list (string * pyval) :=
  flatten_value (VDict dictionary) parent_key separator.

(** ** log_metrics and step_log_metrics *)

Section Logging.

(** [round(f, ndigits)] on a [float] is the builtin's IEEE computation; it
    is left open. *)
Variable round_float : float -> Z -> float.

(** [round(v, ndigits)] for [ndigits >= 0]. *)
Definition py_round (v : pyval) (ndigits : Z) : result pyval :=
  match v with
  | VFloat f => Ok (VFloat (round_float f ndigits))
  | VInt n => Ok (VInt n)
  | VBool b => Ok (VInt (if b then 1 else 0))
  | _ => Raise TypeError
  end.

(** [log_writer.add_scalar(name, value, step)]: the backend is opaque, the
    call is recorded. *)
Definition add_scalar (name : string) (value : pyval) (step : Z) : M unit :=
  emit (AddScalar name value step).

(** [if not isinstance(lrs, list): lrs = [lrs]]. *)
Definition lrs_list (lrs : pyval) : list pyval :=
  match lrs with
  | VList l => l
  | _ => [lrs]
  end.

(** The loop over [enumerate(lrs)], from index [g_id] on. *)
Fixpoint log_lrs (g_id : nat) (lrs : list pyval) (step : Z) : M unit :=
  match lrs with
  | [] => ret tt
  | lr_val :: lrs' =>
      v <- lift (py_round lr_val 6) ;;
      add_scalar ("LR/Group-" ++ str_of_nat g_id) v step ;;
      log_lrs (S g_id) lrs' step
  end.

Definition log_metrics (lrs : pyval) (train_loss val_loss : pyval) (epoch : Z)
    (best_metric : pyval)
    (val_ema_loss ckpt_metric_name train_ckpt_metric val_ckpt_metric
       val_ema_ckpt_metric : pyval) : M unit :=
  log_lrs 0 (lrs_list lrs) epoch ;;
  v <- lift (py_round best_metric 2) ;;
  add_scalar "Common/Best Metric" v epoch.

(** [isinstance(metric_value, Number) or metric_value], as a truth value. *)
Definition is_logged (metric_value : pyval) : result bool :=
  if is_Number metric_value then Ok true else py_bool metric_value.

(** The loop over [flattened_metrics.items()]. *)
Fixpoint log_flattened (items : list (string * pyval)) (step : Z) : M unit :=
  match items with
  | [] => ret tt
  | (metric_name, metric_value) :: items' =>
      keep <- lift (is_logged metric_value) ;;
      (if keep then add_scalar metric_name metric_value step else ret tt) ;;
      log_flattened items' step
  end.

(** [metrics] is [None] or a dictionary; on any other value
    [dictionary.items()] in [flatten] raises [AttributeError]. *)
Definition step_log_metrics (lrs : pyval) (step : Z) (metrics : pyval) : M unit :=
  log_lrs 0 (lrs_list lrs) step ;;
  match metrics with
  | VNone => ret tt
  | VDict d => log_flattened (flatten d "" "/") step
  | _ => raise AttributeError
  end.

End Logging.

(** ** get_log_writers *)

(** What the process and its installation answer to [get_log_writers]:
    whether the node is the master, and the exception, if any, that each
    import and the construction of the hub logger raise.  The other
    collaborators ([logger.log], [create_directories] and the constructors
    of [SummaryWriter], [BoltLogger] and [FileLogger]) are taken to return. *)
Record host := Host {
  is_master : bool;
  import_SummaryWriter : option exn;
  import_BoltLogger : option exn;
  import_HubLogger : option exn;
  init_HubLogger : option exn
}.

(** [getattr(opts, name, default)] and [getattr(opts, name)]. *)
Definition getattr_default (opts : list (string * pyval)) (name : string)
    (default : pyval) : pyval :=
  match Dict.get name opts with
  | Some v => v
  | None => default
  end.

Definition getattr (opts : list (string * pyval)) (name : string) : result pyval :=
  match Dict.get name opts with
  | Some v => Ok v
  | None => Raise AttributeError
  end.

(** [try: from ... import name] followed by [except handled: name = None]:
    the name is bound ([true]) or [None] ([false]); an exception that is
    not [handled] propagates. *)
Definition try_import (name : string) (outcome : option exn) (handled : exn -> bool)
  : M bool :=
  emit (Import name) ;;
  match outcome with
  | None => ret true
  | Some e => if handled e then ret false else raise e
  end.

Definition tensorboard_msg : string :=
  "Unable to import SummaryWriter from torch.utils.tensorboard. Disabling tensorboard logging".

(** The four blocks of [get_log_writers], one per backend, in the order of
    the source; each returns [log_writers] with or without its backend
    appended. *)
Definition tensorboard_block (h : host) (opts : list (string * pyval))
    (save_location : option string) (log_writers : list log_writer)
  : M (list log_writer) :=
  let tensorboard_logging := getattr_default opts "common.tensorboard_logging" (VBool false) in
  enabled <- lift (py_bool tensorboard_logging) ;;
  match enabled, save_location with
  | true, Some location =>
      imported <- try_import "torch.utils.tensorboard.SummaryWriter"
                    (import_SummaryWriter h) is_ImportError ;;
      if imported then
        let exp_dir := (location ++ "/tb_logs")%string in
        emit (CreateDirectories exp_dir) ;;
        let w := SummaryWriter exp_dir "Training and Validation logs" in
        emit (New w) ;;
        ret (log_writers ++ [w])
      else
        emit (LoggerLog tensorboard_msg None) ;;
        ret log_writers
  | _, _ => ret log_writers
  end.

Definition bolt_block (h : host) (opts : list (string * pyval))
    (log_writers : list log_writer) : M (list log_writer) :=
  let bolt_logging := getattr_default opts "common.bolt_logging" (VBool false) in
  enabled <- lift (py_bool bolt_logging) ;;
  if enabled then
    imported <- try_import "corenet.internal.utils.bolt_logger.BoltLogger"
                  (import_BoltLogger h) is_ModuleNotFoundError ;;
    if imported then
      emit (New BoltLogger) ;;
      ret (log_writers ++ [BoltLogger])
    else
      emit (LoggerLog "Unable to import bolt. Disabling bolt logging" None) ;;
      ret log_writers
  else ret log_writers.

Definition hub_block (h : host) (opts : list (string * pyval))
    (log_writers : list log_writer) : M (list log_writer) :=
  let hub_logging := getattr_default opts "common.hub.logging" (VBool false) in
  enabled <- lift (py_bool hub_logging) ;;
  if enabled then
    imported <- try_import "corenet.internal.utils.hub_logger.HubLogger"
                  (import_HubLogger h) is_ModuleNotFoundError ;;
    if imported then
      match init_HubLogger h with
      | None =>
          emit (New (HubLogger opts)) ;;
          ret (log_writers ++ [HubLogger opts])
      | Some ex =>
          if is_Exception ex then
            emit (LoggerLog "Unable to initialize hub logger. Disabling hub logging: "
                    (Some ex)) ;;
            ret log_writers
          else raise ex
      end
    else
      emit (LoggerLog "Unable to import hub. Disabling hub logging" None) ;;
      ret log_writers
  else ret log_writers.

Definition file_block (opts : list (string * pyval)) (save_location : option string)
    (log_writers : list log_writer) : M (list log_writer) :=
  file_logging <- lift (getattr opts "common.file_logging") ;;
  enabled <- lift (py_bool file_logging) ;;
  match enabled, save_location with
  | true, Some location =>
      let w := FileLogger (os_path_join location "stats.pt") in
      emit (New w) ;;
      ret (log_writers ++ [w])
  | _, _ => ret log_writers
  end.

Definition get_log_writers (h : host) (opts : list (string * pyval))
    (save_location : option string) : M (list log_writer) :=
  let is_master_node := is_master h in
  let log_writers := [] in
  if negb is_master_node then ret log_writers else
  log_writers <- tensorboard_block h opts save_location log_writers ;;
  log_writers <- bolt_block h opts log_writers ;;
  log_writers <- hub_block h opts log_writers ;;
  file_block opts save_location log_writers.

(** ** The functions on a store of containers

    Lists and dictionaries are objects: a value refers to them by their
    identity and several values may refer to the same object.  The
    functions are embedded a second time on a store of such objects, with
    every allocation and update explicit, to state what they leave
    unchanged.  [fuel] bounds the depth of the recursion, as the recursion
    limit of the interpreter does: an exhausted [fuel] raises
    [RecursionError]. *)

Declare Scope store_scope.

Module Store.

(** The identity of a list or dictionary. *)
Definition loc := positive.

(** A value: an immutable one, given in full, or a reference to a
    container.  [STuple2 key value] is the tuple of an item. *)
Inductive val :=
| SNone
| SBool (b : bool)
| SInt (n : Z)
| SFloat (f : float)
| SStr (s : string)
| STensor (t : Tensor)
| STuple2 (key : string) (value : val)
| SRef (l : loc).

(** The contents of a container. *)
Inductive obj :=
| ODict (items : list (string * val))
| OList (elems : list val).

(** The store and the [add_scalar] calls received by the log writer. *)
Record state := State {
  heap : gmap loc obj;
  calls : list (string * val * Z)
}.

(** A computation on the store. *)
Definition SM (A : Type) : Type := state -> state * result A.

Definition ret {A} (a : A) : SM A := fun st => (st, Ok a).

Definition bind {A B} (m : SM A) (f : A -> SM B) : SM B :=
  fun st =>
    match m st with
    | (st', Ok a) => f a st'
    | (st', Raise e) => (st', Raise e)
    end.

Definition raise {A} (e : exn) : SM A := fun st => (st, Raise e).

Definition lift {A} (r : result A) : SM A := fun st => (st, r).

Notation "x <- m ;; k" := (bind m (fun x => k))
  (at level 100, m at next level, right associativity) : store_scope.
Notation "m ;; k" := (bind m (fun _ => k))
  (at level 100, right associativity) : store_scope.
Local Open Scope store_scope.

(** A new object, at an identity that is not in use. *)
Definition alloc (o : obj) : SM loc :=
  fun st =>
    let l := fresh (dom (heap st)) in
    (State (<[l := o]> (heap st)) (calls st), Ok l).

(** The contents of an object; every reference of a Python value is to a
    live object, the other case does not arise. *)
Definition read (l : loc) : SM obj :=
  fun st =>
    match heap st !! l with
    | Some o => (st, Ok o)
    | None => (st, Raise RuntimeError)
    end.

(** An update in place. *)
Definition write (l : loc) (o : obj) : SM unit :=
  fun st => (State (<[l := o]> (heap st)) (calls st), Ok tt).

(** [log_writer.add_scalar(name, value, step)]: the backend is opaque, it
    records the call and is taken not to update its arguments. *)
Definition add_scalar (name : string) (value : val) (step : Z) : SM unit :=
  fun st => (State (heap st) (calls st ++ [(name, value, step)]), Ok tt).

Fixpoint for_each {A} (l : list A) (body : A -> SM unit) : SM unit :=
  match l with
  | [] => ret tt
  | x :: l' => body x ;; for_each l' body
  end.

(** [isinstance(v, MutableMapping)] and [isinstance(v, list)]. *)
Definition isinstance_dict (v : val) : SM bool :=
  match v with
  | SRef l => o <- read l ;; ret (match o with ODict _ => true | OList _ => false end)
  | _ => ret false
  end.

Definition isinstance_list (v : val) : SM bool :=
  match v with
  | SRef l => o <- read l ;; ret (match o with OList _ => true | ODict _ => false end)
  | _ => ret false
  end.

(** [v.items()]: only a dictionary has the method. *)
Definition dict_items (v : val) : SM (list (string * val)) :=
  match v with
  | SRef l =>
      o <- read l ;;
      match o with
      | ODict d => ret d
      | OList _ => raise AttributeError
      end
  | _ => raise AttributeError
  end.

(** The elements of the list [v], as a loop over it sees them. *)
Definition list_elems (v : val) : SM (list val) :=
  match v with
  | SRef l =>
      o <- read l ;;
      match o with
      | OList es => ret es
      | ODict d => ret (map (fun kv => SStr (fst kv)) d)
      end
  | _ => raise TypeError
  end.

(** [items.append(x)] and [items.extend(xs)]. *)
Definition list_extend (items : loc) (xs : list val) : SM unit :=
  o <- read items ;;
  match o with
  | OList es => write items (OList (es ++ xs))
  | ODict _ => raise AttributeError
  end.

Definition list_append (items : loc) (x : val) : SM unit :=
  list_extend items [x].

(** The items that a list of tuples holds. *)
Fixpoint items_of (es : list val) : option (list (string * val)) :=
  match es with
  | [] => Some []
  | STuple2 key value :: es' =>
      match items_of es' with
      | Some kvs => Some ((key, value) :: kvs)
      | None => None
      end
  | _ => None
  end.

(** [dict(items)]: a new dictionary. *)
Definition new_dict (items : loc) : SM val :=
  o <- read items ;;
  match o with
  | OList es =>
      match items_of es with
      | Some kvs => l <- alloc (ODict (Dict.of_items kvs)) ;; ret (SRef l)
      | None => raise TypeError
      end
  | ODict _ => raise TypeError
  end.

(** The body of the loop of [flatten] for one item; [flatten] stands for
    the function itself, for its recursive call. *)
Definition flatten_item (flatten : val -> string -> string -> SM val) (items : loc)
    (parent_key separator : string) (item : string * val) : SM unit :=
  let new_key := new_key parent_key separator (fst item) in
  is_mapping <- isinstance_dict (snd item) ;;
  if is_mapping then
    flat <- flatten (snd item) new_key separator ;;
    flat_items <- dict_items flat ;;
    list_extend items (map (fun kv => STuple2 (fst kv) (snd kv)) flat_items)
  else list_append items (STuple2 new_key (snd item)).

Fixpoint flatten (fuel : nat) (dictionary : val) (parent_key separator : string)
  : SM val :=
  match fuel with
  | O => raise RecursionError
  | S fuel =>
      items <- alloc (OList []) ;;
      entries <- dict_items dictionary ;;
      for_each entries (flatten_item (flatten fuel) items parent_key separator) ;;
      new_dict items
  end.

Fixpoint get_batch_size (fuel : nat) (x : val) : SM Z :=
  match fuel with
  | O => raise RecursionError
  | S fuel =>
      match x with
      | STensor t => lift (shape_0 t)
      | SRef l =>
          o <- read l ;;
          match o with
          | ODict d =>
              match first_modality_key d with
              | Some key =>
                  match Dict.get key d with
                  | Some v => get_batch_size fuel v
                  | None => raise KeyError
                  end
              | None => raise NotImplementedError
              end
          | OList es => ret (Z.of_nat (List.length es))
          end
      | _ => raise NotImplementedError
      end
  end.

Definition is_Number (v : val) : bool :=
  match v with
  | SBool _ | SInt _ | SFloat _ => true
  | _ => false
  end.

(** The truth value of [v]; that of a container is read from the store. *)
Definition py_bool (v : val) : SM bool :=
  match v with
  | SNone => ret false
  | SBool b => ret b
  | SInt n => ret (negb (Z.eqb n 0))
  | SFloat f => ret (negb (PrimFloat.eqb f 0%float))
  | SStr s => ret (negb (String.eqb s ""))
  | STensor t => lift (tensor_bool t)
  | STuple2 _ _ => ret true
  | SRef l =>
      o <- read l ;;
      ret (match o with
           | ODict [] | OList [] => false
           | _ => true
           end)
  end.

Section Logging.

Variable round_float : float -> Z -> float.

Definition py_round (v : val) (ndigits : Z) : result val :=
  match v with
  | SFloat f => Ok (SFloat (round_float f ndigits))
  | SInt n => Ok (SInt n)
  | SBool b => Ok (SInt (if b then 1 else 0))
  | _ => Raise TypeError
  end.

(** [if not isinstance(lrs, list): lrs = [lrs]]: the new list is bound to
    the local name. *)
Definition lrs_list (lrs : val) : SM val :=
  is_list <- isinstance_list lrs ;;
  if is_list then ret lrs else l <- alloc (OList [lrs]) ;; ret (SRef l).

(** The loop over [enumerate(lrs)]. *)
Definition log_lrs (lrs : val) (step : Z) : SM unit :=
  elems <- list_elems lrs ;;
  for_each (combine (seq 0 (List.length elems)) elems) (fun g =>
    v <- lift (py_round (snd g) 6) ;;
    add_scalar ("LR/Group-" ++ str_of_nat (fst g)) v step).

Definition log_metrics (lrs : val) (train_loss val_loss : val) (epoch : Z)
    (best_metric : val)
    (val_ema_loss ckpt_metric_name train_ckpt_metric val_ckpt_metric
       val_ema_ckpt_metric : val) : SM unit :=
  lrs <- lrs_list lrs ;;
  log_lrs lrs epoch ;;
  v <- lift (py_round best_metric 2) ;;
  add_scalar "Common/Best Metric" v epoch.

Definition step_log_metrics (fuel : nat) (lrs : val) (step : Z) (metrics : val)
  : SM unit :=
  lrs <- lrs_list lrs ;;
  log_lrs lrs step ;;
  match metrics with
  | SNone => ret tt
  | _ =>
      flattened_metrics <- flatten fuel metrics "" "/" ;;
      entries <- dict_items flattened_metrics ;;
      for_each entries (fun item =>
        keep <- (if is_Number (snd item) then ret true else py_bool (snd item)) ;;
        if keep then add_scalar (fst item) (snd item) step else ret tt)
  end.

End Logging.

End Store.

(** ** Vocabulary of the properties *)

(** The inputs [get_batch_size] rejects by itself: a dictionary with none
    of the modality keys, and a value that is neither a tensor, a
    dictionary nor a list. *)
Definition unsupported_input (x : pyval) : Prop :=
  match x with
  | VTensor _ | VList _ => False
  | VDict d =>
      Dict.mem "image" d = false /\ Dict.mem "video" d = false /\
      Dict.mem "audio" d = false
  | _ => True
  end.

(** The inputs on which the recursion of [get_batch_size] ends at a
    rejected input: the input itself, or the value of the first modality
    key of a dictionary, and so on. *)
Inductive unsupported : pyval -> Prop :=
| unsupported_here x :
    unsupported_input x -> unsupported x
| unsupported_nested d key v :
    first_modality_key d = Some key -> Dict.get key d = Some v ->
    unsupported v ->
    unsupported (VDict d).

(** [v] has a truth value and it is true. *)
Definition truthy (v : pyval) : bool :=
  match py_bool v with
  | Ok b => b
  | Raise _ => false
  end.

(** [calls] are the [add_scalar] calls of the learning rates [lrs], the
    first of which has index [g_id]: the call of [lrs[i]] is named
    "LR/Group-(g_id + i)", carries [round(lrs[i], 6)] and the step. *)
Definition lr_scalars (round_float : float -> Z -> float) (g_id : nat)
    (lrs : list pyval) (step : Z) (calls : list event) : Prop :=
  List.length calls = List.length lrs /\
  forall i lr_val, nth_error lrs i = Some lr_val ->
    exists v, py_round round_float lr_val 6 = Ok v /\
      nth_error calls i = Some (AddScalar ("LR/Group-" ++ str_of_nat (g_id + i)) v step).

(** The backends [get_log_writers] returns on the master node for the
    flags [tensorboard], [bolt], [hub] and [file], when the failures of the
    host are among those the function handles: those that are configured
    and available. *)
Definition tensorboard_writers (h : host) (save_location : option string)
    (tensorboard : bool) : list log_writer :=
  match save_location, import_SummaryWriter h with
  | Some location, None =>
      if tensorboard
      then [SummaryWriter (location ++ "/tb_logs") "Training and Validation logs"]
      else []
  | _, _ => []
  end.

Definition bolt_writers (h : host) (bolt : bool) : list log_writer :=
  match import_BoltLogger h with
  | None => if bolt then [BoltLogger] else []
  | Some _ => []
  end.

Definition hub_writers (h : host) (opts : list (string * pyval)) (hub : bool)
  : list log_writer :=
  match import_HubLogger h, init_HubLogger h with
  | None, None => if hub then [HubLogger opts] else []
  | _, _ => []
  end.

Definition file_writers (save_location : option string) (file : bool) : list log_writer :=
  match save_location with
  | Some location => if file then [FileLogger (os_path_join location "stats.pt")] else []
  | None => []
  end.

Definition available_writers (h : host) (opts : list (string * pyval))
    (save_location : option string) (tensorboard bolt hub file : bool)
  : list log_writer :=
  tensorboard_writers h save_location tensorboard ++ bolt_writers h bolt ++
  hub_writers h opts hub ++ file_writers save_location file.

(** [metric_value] passes the test of [step_log_metrics]: it is a number
    or it is true. *)
Definition logged (metric_value : pyval) : bool :=
  is_Number metric_value || truthy metric_value.

(** The [add_scalar] call of an item at a step. *)
Definition scalar_of (step : Z) (item : string * pyval) : event :=
  AddScalar (fst item) (snd item) step.

(** The maximal paths of keys that lead from a value through nested
    mappings to a value that is not a mapping, each with that value, in the
    order of iteration; a value that is not a mapping is its own leaf. *)
Fixpoint leaf_paths (value : pyval) : list (list string * pyval) :=
  match value with
  | VDict d =>
      (fix go (d : list (string * pyval)) : list (list string * pyval) :=
         match d with
         | [] => []
         | (k, v) :: d' =>
             map (fun pv => (k :: fst pv, snd pv)) (leaf_paths v) ++ go d'
         end) d
  | _ => [([], value)]
  end.

Definition paths (dictionary : list (string * pyval)) : list (list string * pyval) :=
  leaf_paths (VDict dictionary).

(** The key that [flatten] builds along a path below [parent_key]. *)
Definition path_key (parent_key separator : string) (path : list string) : string :=
  fold_left (fun parent key => new_key parent separator key) path parent_key.

(** A computation keeps a store [h0] when, started on a store that holds
    the objects of [h0] as they are, it ends on one that does, whatever its
    outcome; [Q] is what it promises about the value it returns. *)
Definition keeps {A} (h0 : gmap Store.loc Store.obj) (m : Store.SM A) (Q : A -> Prop)
  : Prop :=
  forall st, h0 ⊆ Store.heap st ->
    h0 ⊆ Store.heap (fst (m st)) /\ forall a, snd (m st) = Ok a -> Q a.

(** The value of the store that a nested value stands for: a list or a
    dictionary is an object of the store whose elements stand for those of
    the value. *)
Inductive repr (h : gmap Store.loc Store.obj) : Store.val -> pyval -> Prop :=
| repr_None : repr h Store.SNone VNone
| repr_Bool b : repr h (Store.SBool b) (VBool b)
| repr_Int n : repr h (Store.SInt n) (VInt n)
| repr_Float f : repr h (Store.SFloat f) (VFloat f)
| repr_Str s : repr h (Store.SStr s) (VStr s)
| repr_Tensor t : repr h (Store.STensor t) (VTensor t)
| repr_List l es vs :
    h !! l = Some (Store.OList es) ->
    Forall2 (repr h) es vs ->
    repr h (Store.SRef l) (VList vs)
| repr_Dict l es d :
    h !! l = Some (Store.ODict es) ->
    Forall2 (fun e kv => fst e = fst kv /\ repr h (snd e) (snd kv)) es d ->
    repr h (Store.SRef l) (VDict d).

(** Items of the store that stand for the items of a dictionary. *)
Definition items_repr (h : gmap Store.loc Store.obj)
    (es : list (string * Store.val)) (d : list (string * pyval)) : Prop :=
  Forall2 (fun e kv => fst e = fst kv /\ repr h (snd e) (snd kv)) es d.

(** The depth of the nesting of dictionaries in a value. *)
Fixpoint depth (v : pyval) : nat :=
  match v with
  | VDict d =>
      S ((fix deepest (d : list (string * pyval)) : nat :=
            match d with
            | [] => 0
            | (_, x) :: d' => Nat.max (depth x) (deepest d')
            end) d)
  | _ => 0
  end.

(** The writers whose construction a trace records, in order. *)
Fixpoint constructed (t : list event) : list log_writer :=
  match t with
  | [] => []
  | New w :: t' => w :: constructed t'
  | _ :: t' => constructed t'
  end.

(** The events of each of the four blocks of [get_log_writers]: the import
    of its backend, the message that it is disabled, its directory and its
    construction. *)
Definition tensorboard_event (e : event) : bool :=
  match e with
  | Import name => String.eqb name "torch.utils.tensorboard.SummaryWriter"
  | LoggerLog msg None => String.eqb msg tensorboard_msg
  | CreateDirectories _ => true
  | New (SummaryWriter _ _) => true
  | _ => false
  end.

Definition bolt_event (e : event) : bool :=
  match e with
  | Import name => String.eqb name "corenet.internal.utils.bolt_logger.BoltLogger"
  | LoggerLog msg None => String.eqb msg "Unable to import bolt. Disabling bolt logging"
  | New BoltLogger => true
  | _ => false
  end.

Definition hub_event (e : event) : bool :=
  match e with
  | Import name => String.eqb name "corenet.internal.utils.hub_logger.HubLogger"
  | LoggerLog msg None => String.eqb msg "Unable to import hub. Disabling hub logging"
  | LoggerLog msg (Some _) =>
      String.eqb msg "Unable to initialize hub logger. Disabling hub logging: "
  | New (HubLogger _) => true
  | _ => false
  end.

Definition file_event (e : event) : bool :=
  match e with
  | New (FileLogger _) => true
  | _ => false
  end.

(** * Part II: properties *)

(** ** Dictionaries *)

Lemma get_map_values {V W} (f : V -> W) key (d : list (string * V)) :
  Dict.get key (map (fun kv => (fst kv, f (snd kv))) d) = option_map f (Dict.get key d).
Proof.
  induction d as [|[k v] d IH]; simpl; [reflexivity|].
  destruct (String.eqb key k); [reflexivity | exact IH].
Qed.

Lemma mem_map_values {V W} (f : V -> W) key (d : list (string * V)) :
  Dict.mem key (map (fun kv => (fst kv, f (snd kv))) d) = Dict.mem key d.
Proof.
  unfold Dict.mem. rewrite get_map_values. destruct (Dict.get key d); reflexivity.
Qed.

Lemma get_In {V} key (d : list (string * V)) v :
  Dict.get key d = Some v -> In (key, v) d.
Proof.
  induction d as [|[k w] d IH]; simpl; [discriminate|].
  destruct (String.eqb_spec key k) as [->|_].
  - intros [= ->]. now left.
  - intros H. right. exact (IH H).
Qed.

(** Induction on values that reaches the values of a dictionary. *)
Lemma pyval_dict_ind (P : pyval -> Prop) :
  (forall x, (forall d, x <> VDict d) -> P x) ->
  (forall d, (forall k v, In (k, v) d -> P v) -> P (VDict d)) ->
  forall x, P x.
Proof.
  intros Hleaf Hdict.
  fix IH 1. intros x.
  destruct x as [| | | | | |d|]; try (apply Hleaf; intros d' E; discriminate E).
  apply Hdict.
  induction d as [|[k v] d IHd]; intros k' v' Hin.
  - destruct Hin.
  - destruct Hin as [E|Hin].
    + injection E as _ <-. apply IH.
    + exact (IHd k' v' Hin).
Qed.

(** ** get_batch_size *)

Lemma first_modality_key_map_values {V W} (f : V -> W) (d : list (string * V)) :
  first_modality_key (map (fun kv => (fst kv, f (snd kv))) d) = first_modality_key d.
Proof.
  unfold first_modality_key, modality_keys. simpl.
  rewrite !mem_map_values. reflexivity.
Qed.

(** The defining equation of [get_batch_size] in the form of the source. *)
Lemma get_batch_size_eq (x : pyval) :
  get_batch_size x =
  match x with
  | VTensor t => shape_0 t
  | VDict d =>
      match first_modality_key d with
      | Some key =>
          match Dict.get key d with
          | Some v => get_batch_size v
          | None => Raise KeyError
          end
      | None => Raise NotImplementedError
      end
  | VList l => Ok (Z.of_nat (List.length l))
  | _ => Raise NotImplementedError
  end.
Proof.
  destruct x; try reflexivity.
  simpl.
  set (values := fix values (d : list (string * pyval)) : list (string * result Z) :=
       match d with [] => [] | (k, v) :: d' => (k, get_batch_size v) :: values d' end).
  assert (Hv : forall d, values d = map (fun kv => (fst kv, get_batch_size (snd kv))) d).
  { induction d0 as [|[k v] d0 IH]; simpl; [reflexivity | now rewrite IH]. }
  rewrite Hv, first_modality_key_map_values.
  destruct (first_modality_key d) as [key|]; [|reflexivity].
  rewrite get_map_values. destruct (Dict.get key d); reflexivity.
Qed.

Lemma first_modality_key_cases {V} (d : list (string * V)) :
  (Dict.mem "image" d = true /\ first_modality_key d = Some "image") \/
  (Dict.mem "image" d = false /\ Dict.mem "video" d = true /\
   first_modality_key d = Some "video") \/
  (Dict.mem "image" d = false /\ Dict.mem "video" d = false /\
   Dict.mem "audio" d = true /\ first_modality_key d = Some "audio") \/
  (Dict.mem "image" d = false /\ Dict.mem "video" d = false /\
   Dict.mem "audio" d = false /\ first_modality_key d = None).
Proof.
  unfold first_modality_key, modality_keys. simpl.
  destruct (Dict.mem "image" d); [tauto|].
  destruct (Dict.mem "video" d); [tauto|].
  destruct (Dict.mem "audio" d); tauto.
Qed.

Lemma mem_get {V} key (d : list (string * V)) :
  Dict.mem key d = true <-> exists v, Dict.get key d = Some v.
Proof.
  unfold Dict.mem. destruct (Dict.get key d) as [v|]; split.
  - intros _. now exists v.
  - reflexivity.
  - discriminate.
  - intros [v [=]].
Qed.

Lemma get_batch_size_key (d : list (string * pyval)) key v :
  first_modality_key d = Some key -> Dict.get key d = Some v ->
  get_batch_size (VDict d) = get_batch_size v.
Proof.
  intros Hk Hv. rewrite get_batch_size_eq, Hk, Hv. reflexivity.
Qed.

(** C1. [get_batch_size] on a tensor is [x.shape[0]], the size of the first
    dimension when the tensor has one; on a dictionary with one of the keys
    "image", "video", "audio" it is [get_batch_size] of the value of the
    first of them that is present, in this order; on a list it is the
    length of the list. *)
Theorem get_batch_size_infers :
  (forall t, get_batch_size (VTensor t) = shape_0 t) /\
  (forall t n ns, shape t = n :: ns -> get_batch_size (VTensor t) = Ok n) /\
  (forall d v, Dict.get "image" d = Some v ->
     get_batch_size (VDict d) = get_batch_size v) /\
  (forall d v, Dict.get "image" d = None -> Dict.get "video" d = Some v ->
     get_batch_size (VDict d) = get_batch_size v) /\
  (forall d v, Dict.get "image" d = None -> Dict.get "video" d = None ->
     Dict.get "audio" d = Some v ->
     get_batch_size (VDict d) = get_batch_size v) /\
  (forall l, get_batch_size (VList l) = Ok (Z.of_nat (List.length l))).
Proof.
  repeat split.
  - intros t n ns Hs. simpl. unfold shape_0. now rewrite Hs.
  - intros d v Hi. apply get_batch_size_key with (key := "image"); [|exact Hi].
    unfold first_modality_key, modality_keys, Dict.mem. simpl. now rewrite Hi.
  - intros d v Hi Hv. apply get_batch_size_key with (key := "video"); [|exact Hv].
    unfold first_modality_key, modality_keys, Dict.mem. simpl. now rewrite Hi, Hv.
  - intros d v Hi Hv Ha. apply get_batch_size_key with (key := "audio"); [|exact Ha].
    unfold first_modality_key, modality_keys, Dict.mem. simpl. now rewrite Hi, Hv, Ha.
Qed.

Lemma get_batch_size_infers_witness :
  get_batch_size (VTensor (mkTensor [8; 3; 224; 224]%Z [])) = Ok 8%Z /\
  get_batch_size
    (VDict [("label", VInt 1); ("audio", VList [VNone]);
            ("video", VTensor (mkTensor [4; 16]%Z []))]) =
  get_batch_size (VTensor (mkTensor [4; 16]%Z [])).
Proof.
  destruct get_batch_size_infers as (_ & Ht & _ & Hv & _).
  split.
  - apply (Ht _ 8%Z [3; 224; 224]%Z). reflexivity.
  - apply Hv; reflexivity.
Defined.

(** A dictionary that has the key "image" and still makes
    [get_batch_size] raise [NotImplementedError]: the value of the key is
    an [int]. *)
Lemma get_batch_size_nested_unsupported :
  Dict.mem "image" [("image", VInt 5)] = true /\
  ~ unsupported_input (VDict [("image", VInt 5)]) /\
  get_batch_size (VDict [("image", VInt 5)]) = Raise NotImplementedError.
Proof.
  split; [reflexivity|]. split; [|reflexivity].
  simpl. intros (H & _). discriminate H.
Qed.

(** C2, amended. [get_batch_size] raises [NotImplementedError] exactly on
    the inputs whose chain of first modality keys ends at a rejected input:
    a dictionary with none of the keys "image", "video", "audio", or a value
    that is neither a tensor, a dictionary nor a list. *)
Theorem get_batch_size_raises_iff (x : pyval) :
  get_batch_size x = Raise NotImplementedError <-> unsupported x.
Proof.
  induction x as [x Hx | d IH] using pyval_dict_ind.
  - rewrite get_batch_size_eq. split.
    + intros H. apply unsupported_here.
      destruct x as [| | | | |l|d|t]; simpl; try exact I.
      * discriminate H.
      * now destruct (Hx d).
      * unfold shape_0 in H. destruct (shape t); discriminate H.
    + intros H. inversion H as [x' Hin E | d key v _ _ _ E]; subst.
      * destruct x as [| | | | |l|d|t]; simpl in Hin; try reflexivity;
          try contradiction.
        destruct Hin as (H1 & _). exact (False_ind _ (Hx _ eq_refl)).
      * exact (False_ind _ (Hx _ eq_refl)).
  - rewrite get_batch_size_eq.
    destruct (first_modality_key_cases d) as
      [(Hi & Hk) | [(Hi & Hv & Hk) | [(Hi & Hv & Ha & Hk) | (Hi & Hv & Ha & Hk)]]];
      rewrite Hk.
    4: { split; [|reflexivity]. intros _. apply unsupported_here. simpl. tauto. }
    all: match goal with
         | Hm : Dict.mem ?key _ = true |- _ =>
             let v := fresh "v" in let Hg := fresh "Hg" in
             destruct (proj1 (mem_get key d) Hm) as [v Hg]; rewrite Hg;
             specialize (IH key v (get_In _ _ _ Hg)); rewrite IH; split;
             [ intros Hu; exact (unsupported_nested d key v Hk Hg Hu)
             | intros Hu; inversion Hu as [x' Hin E | d' key' v' Hk' Hg' Hu' E]; subst;
               [ simpl in Hin; destruct Hin as (H1 & H2 & H3); congruence
               | rewrite Hk in Hk'; injection Hk' as <-;
                 rewrite Hg in Hg'; injection Hg' as <-; exact Hu' ] ]
         end.
Qed.

(** ** autocast_fn *)

Lemma dtype_of_supported (amp_precision : option string) :
  (amp_precision = Some "float16" /\ dtype_of amp_precision = Some float16) \/
  (amp_precision = Some "bfloat16" /\ dtype_of amp_precision = Some bfloat16) \/
  (amp_precision <> Some "float16" /\ amp_precision <> Some "bfloat16" /\
   dtype_of amp_precision = None).
Proof.
  destruct amp_precision as [s|]; simpl.
  - destruct (String.eqb_spec s "float16") as [->|H1]; [now left|].
    destruct (String.eqb_spec s "bfloat16") as [->|H2]; [right; now left|].
    right; right. repeat split; congruence.
  - right; right. repeat split; discriminate.
Qed.

(** C3. With [enabled=True] and a CUDA device, "float16" and "bfloat16"
    give the autocast context of the dtype that [str_to_torch_dtype] binds
    to them and nothing is reported; any other precision, [None] included,
    is reported through [logger.error] and the call ends in an exception
    instead of a context, with or without a CUDA device. *)
Theorem autocast_fn_enabled (logger_error_raises : string -> option exn) :
  (forall s, s = "float16" \/ s = "bfloat16" ->
     exists d, Dict.get s str_to_torch_dtype = Some d /\
       autocast_fn logger_error_raises true true (Some s) =
       ([], Ok (Autocast true (Some d)))) /\
  (forall amp_precision cuda,
     amp_precision <> Some "float16" -> amp_precision <> Some "bfloat16" ->
     exists t e,
       autocast_fn logger_error_raises cuda true amp_precision =
       (LoggerError (unsupported_dtype_msg amp_precision) :: t, Raise e)).
Proof.
  split.
  - intros s [-> | ->]; eexists; split; reflexivity.
  - intros p cuda H1 H2.
    destruct (dtype_of_supported p) as [(E & _) | [(E & _) | (_ & _ & Hd)]];
      [contradiction | contradiction |].
    unfold autocast_fn, logger_error. rewrite Hd.
    unfold bind, emit, raise, ret. simpl.
    destruct (logger_error_raises (unsupported_dtype_msg p)) as [e|].
    + exists [], e. reflexivity.
    + destruct cuda; simpl.
      * exists [], KeyError. reflexivity.
      * destruct (logger_error_raises cuda_required_msg) as [e|].
        -- exists [LoggerError cuda_required_msg], e. reflexivity.
        -- exists [LoggerError cuda_required_msg], KeyError. reflexivity.
Qed.

Lemma autocast_fn_enabled_witness :
  (exists d, Dict.get "bfloat16" str_to_torch_dtype = Some d /\
     autocast_fn (fun _ => Some SystemExit) true true (Some "bfloat16") =
     ([], Ok (Autocast true (Some d)))) /\
  (exists t e,
     autocast_fn (fun _ => Some SystemExit) true true (Some "float32") =
     (LoggerError (unsupported_dtype_msg (Some "float32")) :: t, Raise e)) /\
  (exists t e,
     autocast_fn (fun _ => None) true true None =
     (LoggerError (unsupported_dtype_msg None) :: t, Raise e)).
Proof.
  split; [|split].
  - apply (proj1 (autocast_fn_enabled (fun _ => Some SystemExit))). now right.
  - apply (proj2 (autocast_fn_enabled (fun _ => Some SystemExit))); discriminate.
  - apply (proj2 (autocast_fn_enabled (fun _ => None))); discriminate.
Defined.

(** ** get_log_writers *)

(** C8. Off the master node [get_log_writers] returns the empty list and
    does nothing else: no import, no directory, no backend. *)
Theorem get_log_writers_not_master (h : host) (opts : list (string * pyval))
    (save_location : option string) :
  is_master h = false ->
  get_log_writers h opts save_location = ([], Ok []).
Proof.
  intros H. unfold get_log_writers. rewrite H. reflexivity.
Qed.

Lemma get_log_writers_not_master_witness :
  get_log_writers (Host false None None None None)
    [("common.tensorboard_logging", VBool true); ("common.bolt_logging", VBool true);
     ("common.hub.logging", VBool true); ("common.file_logging", VBool true)]
    (Some "results") = ([], Ok []).
Proof.
  apply get_log_writers_not_master. reflexivity.
Defined.

(** A computation that returns is followed by its continuation. *)
Lemma bind_Ok {A B} (m : M A) (f : A -> M B) t a :
  m = (t, Ok a) -> bind m f = (t ++ fst (f a), snd (f a)).
Proof. intros ->. unfold bind. now destruct (f a). Qed.

(** An import whose failure is handled tells whether the name is bound. *)
Lemma try_import_handled name outcome handled :
  (forall e, outcome = Some e -> handled e = true) ->
  try_import name outcome handled =
  ([Import name], Ok (match outcome with None => true | Some _ => false end)).
Proof.
  intros H. unfold try_import. destruct outcome as [e|]; [|reflexivity].
  unfold bind, emit. simpl. now rewrite (H e eq_refl).
Qed.

Local Ltac block_done :=
  eexists; split;
  [ simpl; rewrite ?app_nil_r; reflexivity
  | intros; try congruence; try (now left) ].

Lemma tensorboard_block_ok h opts save_location ws tensorboard :
  py_bool (getattr_default opts "common.tensorboard_logging" (VBool false)) = Ok tensorboard ->
  (forall e, import_SummaryWriter h = Some e -> is_ImportError e = true) ->
  exists t,
    tensorboard_block h opts save_location ws =
    (t, Ok (ws ++ tensorboard_writers h save_location tensorboard)) /\
    (tensorboard = true -> save_location <> None ->
     In (Import "torch.utils.tensorboard.SummaryWriter") t).
Proof.
  intros Hflag Hh. unfold tensorboard_block, tensorboard_writers.
  rewrite Hflag. unfold lift, bind at 1.
  destruct tensorboard, save_location as [location|];
    [ rewrite (bind_Ok _ _ _ _ (try_import_handled _ _ _ Hh)) | | | ];
    destruct (import_SummaryWriter h); block_done.
Qed.

Lemma bolt_block_ok h opts ws bolt :
  py_bool (getattr_default opts "common.bolt_logging" (VBool false)) = Ok bolt ->
  (forall e, import_BoltLogger h = Some e -> is_ModuleNotFoundError e = true) ->
  exists t,
    bolt_block h opts ws = (t, Ok (ws ++ bolt_writers h bolt)) /\
    (bolt = true -> In (Import "corenet.internal.utils.bolt_logger.BoltLogger") t).
Proof.
  intros Hflag Hh. unfold bolt_block, bolt_writers.
  rewrite Hflag. unfold lift, bind at 1.
  destruct bolt.
  - rewrite (bind_Ok _ _ _ _ (try_import_handled _ _ _ Hh)).
    destruct (import_BoltLogger h); eexists; (split; [simpl; rewrite ?app_nil_r; reflexivity|]);
      intros _; now left.
  - eexists; split; [|intros; congruence].
    destruct (import_BoltLogger h); simpl; now rewrite app_nil_r.
Qed.

Lemma hub_block_ok h opts ws hub :
  py_bool (getattr_default opts "common.hub.logging" (VBool false)) = Ok hub ->
  (forall e, import_HubLogger h = Some e -> is_ModuleNotFoundError e = true) ->
  (forall e, init_HubLogger h = Some e -> is_Exception e = true) ->
  exists t,
    hub_block h opts ws = (t, Ok (ws ++ hub_writers h opts hub)) /\
    (hub = true -> In (Import "corenet.internal.utils.hub_logger.HubLogger") t).
Proof.
  intros Hflag Hh Hinit. unfold hub_block, hub_writers.
  rewrite Hflag. unfold lift, bind at 1.
  destruct hub.
  - rewrite (bind_Ok _ _ _ _ (try_import_handled _ _ _ Hh)).
    destruct (import_HubLogger h).
    + eexists; (split; [simpl; rewrite ?app_nil_r; reflexivity|]); intros _; now left.
    + destruct (init_HubLogger h) as [ex|].
      * rewrite (Hinit ex eq_refl).
        eexists; (split; [simpl; rewrite ?app_nil_r; reflexivity|]); intros _; now left.
      * eexists; (split; [simpl; rewrite ?app_nil_r; reflexivity|]); intros _; now left.
  - eexists; split; [|intros; congruence].
    destruct (import_HubLogger h), (init_HubLogger h); simpl; now rewrite app_nil_r.
Qed.

Lemma file_block_ok opts save_location ws file file_logging :
  getattr opts "common.file_logging" = Ok file_logging ->
  py_bool file_logging = Ok file ->
  file_block opts save_location ws =
  (map New (file_writers save_location file), Ok (ws ++ file_writers save_location file)).
Proof.
  intros Hattr Hflag. unfold file_block, file_writers.
  rewrite Hattr. unfold lift, bind at 1. cbn [app]. rewrite Hflag. unfold bind at 1.
  destruct file, save_location as [location|]; simpl; now rewrite ?app_nil_r.
Qed.

(** The import of [BoltLogger] fails with an [ImportError] that is not a
    [ModuleNotFoundError]: the exception reaches the caller and the file
    logger, which is configured too, is never constructed. *)
Lemma get_log_writers_bolt_import_error :
  get_log_writers (Host true None (Some ImportError) None None)
    [("common.bolt_logging", VBool true); ("common.file_logging", VBool true)]
    (Some "results") =
  ([Import "corenet.internal.utils.bolt_logger.BoltLogger"], Raise ImportError).
Proof. reflexivity. Qed.

(** C6, amended. On the master node, when the import of [SummaryWriter]
    fails with an [ImportError], the import of [BoltLogger] or [HubLogger]
    with a [ModuleNotFoundError], or the construction of the hub logger with
    an [Exception], the backend is left out, the other configured backends
    are still imported and returned, and the call returns normally. *)
Theorem get_log_writers_fallbacks (h : host) (opts : list (string * pyval))
    (save_location : option string) (tensorboard bolt hub file : bool)
    (file_logging : pyval) :
  is_master h = true ->
  py_bool (getattr_default opts "common.tensorboard_logging" (VBool false)) = Ok tensorboard ->
  py_bool (getattr_default opts "common.bolt_logging" (VBool false)) = Ok bolt ->
  py_bool (getattr_default opts "common.hub.logging" (VBool false)) = Ok hub ->
  getattr opts "common.file_logging" = Ok file_logging ->
  py_bool file_logging = Ok file ->
  (forall e, import_SummaryWriter h = Some e -> is_ImportError e = true) ->
  (forall e, import_BoltLogger h = Some e -> is_ModuleNotFoundError e = true) ->
  (forall e, import_HubLogger h = Some e -> is_ModuleNotFoundError e = true) ->
  (forall e, init_HubLogger h = Some e -> is_Exception e = true) ->
  exists t,
    get_log_writers h opts save_location =
    (t, Ok (available_writers h opts save_location tensorboard bolt hub file)) /\
    (tensorboard = true -> save_location <> None ->
     In (Import "torch.utils.tensorboard.SummaryWriter") t) /\
    (bolt = true -> In (Import "corenet.internal.utils.bolt_logger.BoltLogger") t) /\
    (hub = true -> In (Import "corenet.internal.utils.hub_logger.HubLogger") t).
Proof.
  intros Hm Htb Hbolt Hhub Hattr Hfile Hsw Hbl Hhl Hinit.
  destruct (tensorboard_block_ok h opts save_location [] tensorboard Htb Hsw)
    as (t1 & E1 & I1).
  destruct (bolt_block_ok h opts (tensorboard_writers h save_location tensorboard)
              bolt Hbolt Hbl) as (t2 & E2 & I2).
  destruct (hub_block_ok h opts
              (tensorboard_writers h save_location tensorboard ++ bolt_writers h bolt)
              hub Hhub Hhl Hinit) as (t3 & E3 & I3).
  pose proof (file_block_ok opts save_location
                ((tensorboard_writers h save_location tensorboard ++ bolt_writers h bolt)
                 ++ hub_writers h opts hub) file file_logging Hattr Hfile) as E4.
  exists (t1 ++ t2 ++ t3 ++
          map New (file_writers save_location file)).
  split; [|repeat split].
  - unfold get_log_writers, available_writers. rewrite Hm. simpl negb. cbv iota.
    simpl in E1.
    rewrite (bind_Ok _ _ _ _ E1), (bind_Ok _ _ _ _ E2), (bind_Ok _ _ _ _ E3), E4.
    now rewrite <- !app_assoc.
  - intros Ht Hl. apply in_or_app. left. now apply I1.
  - intros Hb. apply in_or_app. right. apply in_or_app. left. now apply I2.
  - intros Hh. do 2 (apply in_or_app; right). apply in_or_app. left. now apply I3.
Qed.

Lemma get_log_writers_fallbacks_witness :
  exists t,
    get_log_writers (Host true (Some ModuleNotFoundError) (Some ModuleNotFoundError)
                       None (Some RuntimeError))
      [("common.tensorboard_logging", VBool true); ("common.bolt_logging", VBool true);
       ("common.hub.logging", VBool true); ("common.file_logging", VBool true)]
      (Some "results") =
    (t, Ok [FileLogger "results/stats.pt"]) /\
    (true = true -> Some "results" <> None ->
     In (Import "torch.utils.tensorboard.SummaryWriter") t) /\
    (true = true -> In (Import "corenet.internal.utils.bolt_logger.BoltLogger") t) /\
    (true = true -> In (Import "corenet.internal.utils.hub_logger.HubLogger") t).
Proof.
  apply (get_log_writers_fallbacks
           (Host true (Some ModuleNotFoundError) (Some ModuleNotFoundError)
              None (Some RuntimeError))
           [("common.tensorboard_logging", VBool true); ("common.bolt_logging", VBool true);
            ("common.hub.logging", VBool true); ("common.file_logging", VBool true)]
           (Some "results") true true true true (VBool true));
    try reflexivity; simpl; intros e [= <-]; reflexivity.
Defined.

(** ** log_metrics and step_log_metrics *)

Lemma py_round_number round_float v ndigits :
  is_Number v = true -> exists r, py_round round_float v ndigits = Ok r.
Proof.
  destruct v; simpl; try discriminate; intros _; eexists; reflexivity.
Qed.

(** The loop over numeric learning rates makes their calls and returns. *)
Lemma log_lrs_numbers round_float (lrs : list pyval) (step : Z) :
  Forall (fun lr_val => is_Number lr_val = true) lrs ->
  forall g_id, exists calls,
    log_lrs round_float g_id lrs step = (calls, Ok tt) /\
    lr_scalars round_float g_id lrs step calls /\
    Forall (fun e => exists name value, e = AddScalar name value step) calls.
Proof.
  induction 1 as [|lr_val lrs Hn _ IH]; intros g_id.
  - exists []. repeat split; [|constructor].
    intros [|i] lr_val; discriminate.
  - destruct (py_round_number round_float lr_val 6 Hn) as [v Hv].
    destruct (IH (S g_id)) as (calls & E & (Hlen & Hnth) & Hall).
    exists (AddScalar ("LR/Group-" ++ str_of_nat g_id)%string v step :: calls).
    split; [|split; [split|]].
    + simpl. rewrite Hv. unfold lift, add_scalar, emit, bind. now rewrite E.
    + simpl. now rewrite Hlen.
    + intros [|i] lr E'; simpl in E'.
      * injection E' as <-. exists v. now rewrite Nat.add_0_r.
      * destruct (Hnth i lr E') as (w & Hw & Hi). exists w.
        now rewrite Nat.add_succ_r.
    + constructor; [repeat eexists | exact Hall].
Qed.

Lemma is_logged_defined (v : pyval) :
  is_Number v = true \/ (exists b, py_bool v = Ok b) ->
  is_logged v = Ok (logged v).
Proof.
  unfold is_logged, logged, truthy.
  destruct (is_Number v); [reflexivity|].
  intros [H | [b H]]; [discriminate | now rewrite H].
Qed.

(** The loop over the flattened metrics makes the calls of the items that
    pass the test, in order, when every truth value it needs is defined. *)
Lemma log_flattened_defined (items : list (string * pyval)) (step : Z) :
  (forall k v, In (k, v) items ->
     is_Number v = true \/ exists b, py_bool v = Ok b) ->
  log_flattened items step =
  (map (scalar_of step) (List.filter (fun item => logged (snd item)) items), Ok tt).
Proof.
  induction items as [|[k v] items IH]; intros H; [reflexivity|].
  simpl. rewrite (is_logged_defined v (H k v (or_introl eq_refl))).
  rewrite IH by (intros k' v' Hin; apply (H k' v'); now right).
  unfold lift, bind, add_scalar, emit, ret. now destruct (logged v).
Qed.

(** C10. [log_metrics] makes the same calls whatever the losses, the name
    of the checkpoint metric and the checkpoint metrics are; for numeric
    learning rates and best metric they are one "LR/Group-i" call per
    learning rate, rounded to 6 places, and one "Common/Best Metric" call,
    rounded to 2 places, all at [epoch]. *)
Theorem log_metrics_depends_only_on (round_float : float -> Z -> float)
    (lrs : pyval) (epoch : Z) (best_metric : pyval)
    (train_loss val_loss val_ema_loss ckpt_metric_name train_ckpt_metric
       val_ckpt_metric val_ema_ckpt_metric : pyval)
    (train_loss' val_loss' val_ema_loss' ckpt_metric_name' train_ckpt_metric'
       val_ckpt_metric' val_ema_ckpt_metric' : pyval) :
  log_metrics round_float lrs train_loss val_loss epoch best_metric val_ema_loss
    ckpt_metric_name train_ckpt_metric val_ckpt_metric val_ema_ckpt_metric =
  log_metrics round_float lrs train_loss' val_loss' epoch best_metric val_ema_loss'
    ckpt_metric_name' train_ckpt_metric' val_ckpt_metric' val_ema_ckpt_metric' /\
  (Forall (fun lr_val => is_Number lr_val = true) (lrs_list lrs) ->
   is_Number best_metric = true ->
   exists calls best,
     lr_scalars round_float 0 (lrs_list lrs) epoch calls /\
     py_round round_float best_metric 2 = Ok best /\
     log_metrics round_float lrs train_loss val_loss epoch best_metric val_ema_loss
       ckpt_metric_name train_ckpt_metric val_ckpt_metric val_ema_ckpt_metric =
     (calls ++ [AddScalar "Common/Best Metric" best epoch], Ok tt)).
Proof.
  split; [reflexivity|].
  intros Hlrs Hbest.
  destruct (log_lrs_numbers round_float _ epoch Hlrs 0) as (calls & E & Hcalls & _).
  destruct (py_round_number round_float best_metric 2 Hbest) as [best Hb].
  exists calls, best. repeat split; try assumption; try apply Hcalls.
  unfold log_metrics. rewrite (bind_Ok _ _ _ _ E), Hb. reflexivity.
Qed.

Lemma log_metrics_depends_only_on_witness :
  exists calls best,
    lr_scalars (fun f _ => f) 0 [VFloat 0.5; VFloat 0.125] 3 calls /\
    py_round (fun f _ => f) (VFloat 71.5) 2 = Ok best /\
    log_metrics (fun f _ => f) (VList [VFloat 0.5; VFloat 0.125])
      (VFloat 2.5) (VFloat 3.5) 3 (VFloat 71.5) VNone (VStr "top1") VNone VNone VNone =
    (calls ++ [AddScalar "Common/Best Metric" best 3], Ok tt).
Proof.
  apply (proj2 (log_metrics_depends_only_on (fun f _ => f)
                  (VList [VFloat 0.5; VFloat 0.125]) 3 (VFloat 71.5)
                  (VFloat 2.5) (VFloat 3.5) VNone (VStr "top1") VNone VNone VNone
                  VNone VNone VNone VNone VNone VNone VNone)).
  - repeat constructor.
  - reflexivity.
Defined.

(** The calls of [step_log_metrics] on numeric learning rates and a
    dictionary of metrics whose truth values are defined: those of the
    learning rates, then those of the flattened items that pass the test. *)
Lemma step_log_metrics_calls round_float (lrs : pyval) (step : Z)
    (metrics : list (string * pyval)) :
  Forall (fun lr_val => is_Number lr_val = true) (lrs_list lrs) ->
  (forall k v, In (k, v) (flatten metrics "" "/") ->
     is_Number v = true \/ exists b, py_bool v = Ok b) ->
  exists lr_calls,
    lr_scalars round_float 0 (lrs_list lrs) step lr_calls /\
    Forall (fun e => exists name value, e = AddScalar name value step) lr_calls /\
    step_log_metrics round_float lrs step (VDict metrics) =
    (lr_calls ++
     map (scalar_of step)
       (List.filter (fun item => logged (snd item)) (flatten metrics "" "/")),
     Ok tt).
Proof.
  intros Hlrs Hdef.
  destruct (log_lrs_numbers round_float _ step Hlrs 0) as (calls & E & Hcalls & Hall).
  exists calls. repeat split; try assumption; try apply Hcalls.
  unfold step_log_metrics. rewrite (bind_Ok _ _ _ _ E).
  now rewrite (log_flattened_defined _ step Hdef).
Qed.

(** C5. On numeric learning rates and a dictionary of metrics whose truth
    values are defined, [step_log_metrics] does nothing but [add_scalar]
    calls at [step]: the call of [lrs[i]] is named "LR/Group-i" and carries
    [round(lrs[i], 6)], a scalar [lrs] counting as the list of itself, and
    every numeric value of the flattened metrics is passed under its key. *)
Theorem step_log_metrics_dispatch (round_float : float -> Z -> float)
    (lrs : pyval) (step : Z) (metrics : list (string * pyval)) :
  Forall (fun lr_val => is_Number lr_val = true) (lrs_list lrs) ->
  (forall k v, In (k, v) (flatten metrics "" "/") ->
     is_Number v = true \/ exists b, py_bool v = Ok b) ->
  ((forall l, lrs <> VList l) -> lrs_list lrs = [lrs]) /\
  exists lr_calls metric_calls,
    step_log_metrics round_float lrs step (VDict metrics) =
    (lr_calls ++ metric_calls, Ok tt) /\
    lr_scalars round_float 0 (lrs_list lrs) step lr_calls /\
    (forall k v, In (k, v) (flatten metrics "" "/") -> is_Number v = true ->
       In (AddScalar k v step) metric_calls) /\
    (forall e, In e (lr_calls ++ metric_calls) ->
       exists name value, e = AddScalar name value step).
Proof.
  intros Hlrs Hdef. split.
  { intros Hl. destruct lrs; try reflexivity. exact (False_ind _ (Hl _ eq_refl)). }
  destruct (step_log_metrics_calls round_float lrs step metrics Hlrs Hdef)
    as (lr_calls & Hscalars & Hall & E).
  eexists lr_calls, _. split; [exact E|]. split; [exact Hscalars|]. split.
  - intros k v Hin Hnum. apply (in_map (scalar_of step) _ (k, v)).
    apply filter_In. split; [exact Hin|]. unfold logged. simpl. now rewrite Hnum.
  - intros e Hin. apply in_app_or in Hin as [Hin | Hin].
    + rewrite List.Forall_forall in Hall. now apply Hall.
    + apply in_map_iff in Hin as ([k v] & <- & _). now exists k, v.
Qed.

Lemma step_log_metrics_dispatch_witness :
  exists lr_calls metric_calls,
    step_log_metrics (fun f _ => f) (VFloat 0.5) 7
      (VDict [("loss", VDict [("total", VFloat 1.5); ("note", VStr "warmup")]);
              ("top1", VInt 0)]) =
    (lr_calls ++ metric_calls, Ok tt) /\
    lr_scalars (fun f _ => f) 0 (lrs_list (VFloat 0.5)) 7 lr_calls /\
    (forall k v,
       In (k, v)
         (flatten [("loss", VDict [("total", VFloat 1.5); ("note", VStr "warmup")]);
                   ("top1", VInt 0)] "" "/") ->
       is_Number v = true -> In (AddScalar k v 7) metric_calls) /\
    (forall e, In e (lr_calls ++ metric_calls) ->
       exists name value, e = AddScalar name value 7).
Proof.
  apply (step_log_metrics_dispatch (fun f _ => f) (VFloat 0.5) 7
           [("loss", VDict [("total", VFloat 1.5); ("note", VStr "warmup")]);
            ("top1", VInt 0)]).
  - repeat constructor.
  - intros k v Hin. vm_compute in Hin.
    destruct Hin as [[= <- <-] | [[= <- <-] | [[= <- <-] | []]]];
      [now left | right; now exists true | now left].
Defined.

(** C9. On numeric learning rates and a dictionary of metrics whose truth
    values are defined, the calls that follow those of the learning rates
    are the flattened items whose value is a number or is true, each with
    its value as it is; so zero is passed, [None], the empty string and the
    empty list are not, and a non-empty string is. *)
Theorem step_log_metrics_filter (round_float : float -> Z -> float)
    (lrs : pyval) (step : Z) (metrics : list (string * pyval)) :
  Forall (fun lr_val => is_Number lr_val = true) (lrs_list lrs) ->
  (forall k v, In (k, v) (flatten metrics "" "/") ->
     is_Number v = true \/ exists b, py_bool v = Ok b) ->
  exists lr_calls metric_calls,
    step_log_metrics round_float lrs step (VDict metrics) =
    (lr_calls ++ metric_calls, Ok tt) /\
    List.length lr_calls = List.length (lrs_list lrs) /\
    metric_calls =
    map (scalar_of step)
      (List.filter (fun item => logged (snd item)) (flatten metrics "" "/")) /\
    (forall k v, In (k, v) (flatten metrics "" "/") ->
       (In (AddScalar k v step) metric_calls <->
        is_Number v = true \/ py_bool v = Ok true)) /\
    logged (VInt 0) = true /\ logged (VFloat 0) = true /\ logged VNone = false /\
    logged (VStr "") = false /\ logged (VList []) = false /\
    (forall c s, logged (VStr (String c s)) = true).
Proof.
  intros Hlrs Hdef.
  destruct (step_log_metrics_calls round_float lrs step metrics Hlrs Hdef)
    as (lr_calls & Hscalars & _ & E).
  eexists lr_calls, _. split; [exact E|]. split; [apply Hscalars|].
  split; [reflexivity|]. split; [|repeat split].
  intros k v Hin.
  assert (Hlogged : logged v = true <-> is_Number v = true \/ py_bool v = Ok true).
  { unfold logged, truthy. destruct (is_Number v); simpl.
    - split; [now left | reflexivity].
    - destruct (py_bool v) as [[|]|e]; split; try (intros [H|H]; congruence);
        try discriminate; now right. }
  rewrite <- Hlogged. split.
  - intros H. apply in_map_iff in H as ([k' v'] & [= -> ->] & H).
    now apply filter_In in H as [_ H].
  - intros H. apply (in_map (scalar_of step) _ (k, v)).
    apply filter_In. now split.
Qed.

Lemma step_log_metrics_filter_witness :
  exists lr_calls metric_calls,
    step_log_metrics (fun f _ => f) (VList [VFloat 0.5]) 7
      (VDict [("zero", VInt 0); ("none", VNone); ("empty", VStr "");
              ("list", VList []); ("name", VStr "run")]) =
    (lr_calls ++ metric_calls, Ok tt) /\
    List.length lr_calls = 1 /\
    metric_calls = [AddScalar "zero" (VInt 0) 7; AddScalar "name" (VStr "run") 7].
Proof.
  destruct (step_log_metrics_filter (fun f _ => f) (VList [VFloat 0.5]) 7
              [("zero", VInt 0); ("none", VNone); ("empty", VStr "");
               ("list", VList []); ("name", VStr "run")])
    as (lr_calls & metric_calls & E & Hlen & Hm & _).
  - repeat constructor.
  - intros k v Hin. vm_compute in Hin.
    destruct Hin as [[= <- <-] | [[= <- <-] | [[= <- <-] | [[= <- <-] | [[= <- <-] | []]]]]];
      first [now left | right; eexists; reflexivity].
  - exists lr_calls, metric_calls. split; [exact E|]. split; [exact Hlen|].
    rewrite Hm. reflexivity.
Defined.

(** ** flatten *)

(** The defining equation of [flatten] in the form of the source. *)
Lemma flatten_eq (dictionary : list (string * pyval)) (parent_key separator : string) :
  flatten dictionary parent_key separator =
  Dict.of_items
    (flat_map
       (fun item =>
          let new_key := new_key parent_key separator (fst item) in
          match snd item with
          | VDict d => flatten d new_key separator
          | value => [(new_key, value)]
          end) dictionary).
Proof.
  unfold flatten. simpl. f_equal.
  induction dictionary as [|[k v] d IH]; [reflexivity|].
  cbn [flat_map fst snd]. rewrite <- IH. f_equal. now destruct v.
Qed.

Lemma paths_eq (dictionary : list (string * pyval)) :
  paths dictionary =
  flat_map (fun item => map (fun pv => (fst item :: fst pv, snd pv))
                          (leaf_paths (snd item))) dictionary.
Proof.
  unfold paths. simpl.
  induction dictionary as [|[k v] d IH]; [reflexivity|].
  cbn [flat_map fst snd]. now rewrite <- IH.
Qed.

Lemma leaf_paths_leaf (x : pyval) :
  (forall d, x <> VDict d) -> leaf_paths x = [([], x)].
Proof.
  intros H. destruct x; try reflexivity. exact (False_ind _ (H _ eq_refl)).
Qed.

Lemma flatten_value_leaf (x : pyval) key separator :
  (forall d, x <> VDict d) -> flatten_value x key separator = [(key, x)].
Proof.
  intros H. destruct x; try reflexivity. exact (False_ind _ (H _ eq_refl)).
Qed.

Lemma flatten_value_eq (v : pyval) key separator :
  flatten_value v key separator =
  match v with
  | VDict d => flatten d key separator
  | value => [(key, value)]
  end.
Proof. now destruct v. Qed.

(** The same equation with the two cases of an item folded. *)
Lemma flatten_items (dictionary : list (string * pyval)) (parent_key separator : string) :
  flatten dictionary parent_key separator =
  Dict.of_items
    (flat_map
       (fun item =>
          flatten_value (snd item) (new_key parent_key separator (fst item)) separator)
       dictionary).
Proof.
  rewrite flatten_eq. f_equal. apply flat_map_ext. intros [k v].
  now destruct v.
Qed.

(** *** [dict(items)] *)

Lemma set_In {V} key (v : V) d k w :
  In (k, w) (Dict.set key v d) -> (k, w) = (key, v) \/ In (k, w) d.
Proof.
  induction d as [|[k' w'] d IH]; simpl.
  - intros [E|[]]. now left.
  - destruct (String.eqb_spec key k') as [->|_]; simpl.
    + intros [E|H]; [now left | right; now right].
    + intros [E|H]; [right; now left|].
      destruct (IH H) as [E|H']; [now left | right; now right].
Qed.

Lemma of_items_In {V} (items : list (string * V)) k w :
  In (k, w) (Dict.of_items items) -> In (k, w) items.
Proof.
  unfold Dict.of_items.
  enough (G : forall acc, In (k, w) (fold_left (fun d kv => Dict.set (fst kv) (snd kv) d)
                                       items acc) ->
                          In (k, w) acc \/ In (k, w) items).
  { intros H. destruct (G [] H) as [[]|H']. exact H'. }
  induction items as [|[k' w'] items IH]; intros acc; simpl; [now left|].
  intros H. destruct (IH _ H) as [H'|H']; [|right; now right].
  destruct (set_In _ _ _ _ _ H') as [E|H'']; [right; left; now symmetry | now left].
Qed.

Lemma set_fresh {V} key (v : V) d :
  ~ In key (map fst d) -> Dict.set key v d = d ++ [(key, v)].
Proof.
  induction d as [|[k w] d IH]; simpl; [reflexivity|].
  intros H. destruct (String.eqb_spec key k) as [->|_]; [tauto|].
  rewrite IH; [reflexivity | tauto].
Qed.

(** A list of items without repeated key is its own dictionary. *)
Lemma of_items_NoDup {V} (items : list (string * V)) :
  List.NoDup (map fst items) -> Dict.of_items items = items.
Proof.
  unfold Dict.of_items.
  enough (G : forall acc, List.NoDup (map fst (acc ++ items)) ->
                          fold_left (fun d kv => Dict.set (fst kv) (snd kv) d) items acc =
                          acc ++ items).
  { intros H. exact (G [] H). }
  induction items as [|[k w] items IH]; intros acc H; simpl.
  - now rewrite app_nil_r.
  - rewrite set_fresh.
    + rewrite IH; rewrite <- app_assoc; [reflexivity | exact H].
    + rewrite map_app in H. simpl in H. apply List.NoDup_remove_2 in H.
      intros Hin. apply H. apply in_or_app. now left.
Qed.

Lemma get_NoDup {V} (d : list (string * V)) k v :
  List.NoDup (map fst d) -> (Dict.get k d = Some v <-> In (k, v) d).
Proof.
  intros H. split; [apply get_In|].
  induction d as [|[k' v'] d IH]; simpl; [intros []|].
  inversion H as [|? ? Hk Hd]; subst.
  destruct (String.eqb_spec k k') as [->|Hne].
  - intros [[= ->]|Hin]; [reflexivity|].
    exfalso. apply Hk. now apply (in_map fst _ (k', v)).
  - intros [[= -> ->]|Hin]; [congruence | now apply IH].
Qed.

Lemma set_keys_NoDup {V} key (v : V) d :
  List.NoDup (map fst d) -> List.NoDup (map fst (Dict.set key v d)).
Proof.
  intros H.
  destruct (in_dec string_dec key (map fst d)) as [Hin|Hout].
  - enough (E : map fst (Dict.set key v d) = map fst d) by now rewrite E.
    clear H. induction d as [|[k w] d IH]; simpl in *; [destruct Hin|].
    destruct (String.eqb_spec key k) as [->|Hne]; [reflexivity|].
    simpl. f_equal. apply IH. destruct Hin; congruence.
  - rewrite (set_fresh _ _ _ Hout), map_app. simpl.
    apply List.NoDup_app; [exact H | repeat constructor; intros [] | ].
    intros k Hk [<-|[]]. contradiction.
Qed.

(** The keys of [dict(items)] are distinct. *)
Lemma of_items_keys_NoDup {V} (items : list (string * V)) :
  List.NoDup (map fst (Dict.of_items items)).
Proof.
  unfold Dict.of_items.
  enough (G : forall acc, List.NoDup (map fst acc) ->
            List.NoDup (map fst (fold_left (fun d kv => Dict.set (fst kv) (snd kv) d)
                              items acc))).
  { apply G. constructor. }
  induction items as [|[k w] items IH]; intros acc H; simpl; [exact H|].
  apply IH. now apply set_keys_NoDup.
Qed.

(** *** Paths and keys *)

Lemma leaf_paths_not_mapping (x : pyval) path v :
  In (path, v) (leaf_paths x) -> is_MutableMapping v = false.
Proof.
  revert path. induction x as [x Hx | d IH] using pyval_dict_ind; intros path.
  - rewrite (leaf_paths_leaf _ Hx). intros [[= <- <-]|[]].
    destruct x; try reflexivity. exact (False_ind _ (Hx _ eq_refl)).
  - change (leaf_paths (VDict d)) with (paths d). rewrite paths_eq.
    intros H. apply in_flat_map in H as ([k x] & Hin & H).
    apply in_map_iff in H as ([p w] & [= <- <-] & H).
    exact (IH k x Hin p H).
Qed.

Lemma paths_In (d : list (string * pyval)) path v :
  In (path, v) (paths d) <->
  exists k x rest, In (k, x) d /\ path = k :: rest /\ In (rest, v) (leaf_paths x).
Proof.
  rewrite paths_eq, in_flat_map. split.
  - intros ([k x] & Hin & H). apply in_map_iff in H as ([p w] & [= <- <-] & H).
    now exists k, x, p.
  - intros (k & x & rest & Hin & -> & H). exists (k, x). split; [exact Hin|].
    apply in_map_iff. now exists (rest, v).
Qed.

(** Every item of the result comes from a path, under the key built along
    it. *)
Lemma flatten_value_In (x : pyval) key separator k v :
  In (k, v) (flatten_value x key separator) ->
  exists path, In (path, v) (leaf_paths x) /\ k = path_key key separator path.
Proof.
  revert key. induction x as [x Hx | d IH] using pyval_dict_ind; intros key.
  - rewrite (leaf_paths_leaf _ Hx), (flatten_value_leaf _ _ _ Hx).
    intros [[= <- <-]|[]]. exists []. split; [now left | reflexivity].
  - change (flatten_value (VDict d) key separator) with (flatten d key separator).
    change (leaf_paths (VDict d)) with (paths d).
    rewrite flatten_items. intros H.
    apply of_items_In, in_flat_map in H as ([k' x] & Hin & H).
    cbn [fst snd] in H.
    destruct (IH k' x Hin _ H) as (rest & Hrest & ->).
    exists (k' :: rest). split; [|reflexivity].
    apply paths_In. now exists k', x, rest.
Qed.

(** When the keys built along the paths are distinct, the result is the
    list of the paths with these keys. *)
Lemma flatten_value_paths (x : pyval) separator :
  forall key,
  List.NoDup (map (fun pv => path_key key separator (fst pv)) (leaf_paths x)) ->
  flatten_value x key separator =
  map (fun pv => (path_key key separator (fst pv), snd pv)) (leaf_paths x).
Proof.
  induction x as [x Hx | d IH] using pyval_dict_ind; intros key Hnd.
  - now rewrite (leaf_paths_leaf _ Hx), (flatten_value_leaf _ _ _ Hx).
  - change (flatten_value (VDict d) key separator) with (flatten d key separator).
    change (leaf_paths (VDict d)) with (paths d) in *.
    rewrite flatten_items. rewrite paths_eq in *.
    set (P := fun item : string * pyval =>
                map (fun pv => (fst item :: fst pv, snd pv)) (leaf_paths (snd item))) in *.
    set (F := fun item : string * pyval => flatten_value _ _ _).
    assert (E : forall d0, (forall k v, In (k, v) d0 -> In (k, v) d) ->
              List.NoDup (map (fun pv => path_key key separator (fst pv)) (flat_map P d0)) ->
              flat_map F d0 =
              map (fun pv => (path_key key separator (fst pv), snd pv)) (flat_map P d0)).
    { induction d0 as [|[k v] d0 IHd]; intros Hsub Hnd0; [reflexivity|].
      cbn [flat_map] in *. rewrite map_app in *.
      rewrite IHd;
        [ | intros k' v' Hin; apply Hsub; now right
          | exact (List.NoDup_app_remove_l _ _ Hnd0) ].
      f_equal. unfold F, P. cbn [fst snd].
      apply List.NoDup_app_remove_r in Hnd0. unfold P in Hnd0. cbn [fst snd] in Hnd0.
      rewrite map_map in Hnd0. cbn [fst snd] in Hnd0.
      rewrite (IH k v (Hsub k v (or_introl eq_refl)) _ Hnd0).
      rewrite map_map. reflexivity. }
    rewrite (E d (fun k v H => H) Hnd).
    apply of_items_NoDup. now rewrite map_map.
Qed.

#[local] Arguments String.append !s1 s2 : simpl nomatch.

Lemma string_app_assoc (a b c : string) : ((a ++ b) ++ c = a ++ b ++ c)%string.
Proof. induction a as [|ch a IH]; simpl; [reflexivity | now rewrite IH]. Qed.

Lemma concat_cons_app separator (a k : string) (l : list string) :
  String.concat separator ((a ++ separator ++ k)%string :: l) =
  (a ++ separator ++ String.concat separator (k :: l))%string.
Proof.
  destruct l as [|x l]; [reflexivity|].
  cbn [String.concat]. now rewrite !string_app_assoc.
Qed.

(** Below a parent key that is not empty, the key built along a path is
    the parent and the keys of the path joined by the separator. *)
Lemma path_key_nonempty parent separator path :
  parent <> "" ->
  path_key parent separator path = String.concat separator (parent :: path).
Proof.
  revert parent. induction path as [|key path IH]; intros parent Hp; [reflexivity|].
  change (path_key parent separator (key :: path))
    with (path_key (new_key parent separator key) separator path).
  assert (E : new_key parent separator key = (parent ++ separator ++ key)%string).
  { unfold new_key. destruct (String.eqb_spec parent ""); congruence. }
  rewrite E, IH by (destruct parent; [congruence | discriminate]).
  apply concat_cons_app.
Qed.

(** At the top, the key built along a path is the join of its keys, unless
    the path goes on after an empty first key. *)
Lemma path_key_join separator key rest :
  key <> "" \/ rest = [] ->
  path_key "" separator (key :: rest) = String.concat separator (key :: rest).
Proof.
  intros [H | ->]; [|reflexivity].
  change (path_key "" separator (key :: rest)) with (path_key key separator rest).
  now apply path_key_nonempty.
Qed.

Lemma paths_path_key (d : list (string * pyval)) separator path v :
  (forall k d', In (k, VDict d') d -> k <> "") ->
  In (path, v) (paths d) ->
  path_key "" separator path = String.concat separator path.
Proof.
  intros Hd H. apply paths_In in H as (k & x & rest & Hin & -> & Hrest).
  apply path_key_join.
  destruct x as [| | | | | |d'|]; try (right; now destruct Hrest as [[= <-]|[]]).
  left. exact (Hd k d' Hin).
Qed.

(** Two paths under the same key: the dictionary binds the key to the
    value of the second one. *)
Lemma flatten_key_collision :
  In (["a"; "b"], VInt 1) (paths [("a", VDict [("b", VInt 1)]); ("a/b", VInt 2)]) /\
  String.concat "/" ["a"; "b"] = "a/b" /\
  flatten [("a", VDict [("b", VInt 1)]); ("a/b", VInt 2)] "" "/" = [("a/b", VInt 2)] /\
  Dict.get "a/b" (flatten [("a", VDict [("b", VInt 1)]); ("a/b", VInt 2)] "" "/")
  <> Some (VInt 1).
Proof.
  repeat split; [now left | discriminate].
Qed.

(** A mapping under the empty key: its keys are not prefixed with the
    separator. *)
Lemma flatten_empty_parent_key :
  In (["" ; "b"], VInt 1) (paths [("", VDict [("b", VInt 1)])]) /\
  String.concat "/" [""; "b"] = "/b" /\
  flatten [("", VDict [("b", VInt 1)])] "" "/" = [("b", VInt 1)].
Proof.
  repeat split. now left.
Qed.

(** C4, amended. [flatten] returns a dictionary without mapping values
    whose items all come from a maximal path to a value that is not a
    mapping; when no mapping is bound to the empty key at the top and no
    two paths join to the same key, the items are exactly the paths, each
    under the join of its keys by the separator and bound to its leaf. *)
Theorem flatten_paths (dictionary : list (string * pyval)) (separator : string) :
  List.NoDup (map fst (flatten dictionary "" separator)) /\
  (forall k v, In (k, v) (flatten dictionary "" separator) ->
     is_MutableMapping v = false /\
     exists path, In (path, v) (paths dictionary) /\ k = path_key "" separator path) /\
  ((forall k d, In (k, VDict d) dictionary -> k <> "") ->
   List.NoDup (map (fun pv => String.concat separator (fst pv)) (paths dictionary)) ->
   flatten dictionary "" separator =
   map (fun pv => (String.concat separator (fst pv), snd pv)) (paths dictionary) /\
   (forall k v,
      Dict.get k (flatten dictionary "" separator) = Some v <->
      exists path, In (path, v) (paths dictionary) /\ k = String.concat separator path)).
Proof.
  split; [|split].
  - rewrite flatten_items. apply of_items_keys_NoDup.
  - intros k v H. destruct (flatten_value_In _ _ _ _ _ H) as (path & Hp & ->).
    split; [exact (leaf_paths_not_mapping _ _ _ Hp) | now exists path].
  - intros Hd Hnd.
    assert (Hkeys : forall pv, In pv (paths dictionary) ->
              path_key "" separator (fst pv) = String.concat separator (fst pv)).
    { intros [p v] Hin. exact (paths_path_key _ _ _ _ Hd Hin). }
    assert (E : flatten dictionary "" separator =
                map (fun pv => (String.concat separator (fst pv), snd pv))
                  (paths dictionary)).
    { unfold flatten. rewrite flatten_value_paths.
      - apply map_ext_in. intros pv Hin. now rewrite Hkeys.
      - rewrite (map_ext_in _ (fun pv => String.concat separator (fst pv)));
          [exact Hnd | exact Hkeys]. }
    split; [exact E|].
    intros k v. rewrite get_NoDup by (rewrite E, map_map; exact Hnd).
    rewrite E, in_map_iff. split.
    + intros ([p w] & [= <- <-] & Hin). now exists p.
    + intros (p & Hin & ->). now exists (p, v).
Qed.

Lemma flatten_paths_witness :
  flatten [("loss", VDict [("total", VFloat 1.5); ("aux", VDict [("kl", VInt 2)])]);
           ("", VNone); ("top1", VInt 0)] "" "/" =
  [("loss/total", VFloat 1.5); ("loss/aux/kl", VInt 2); ("", VNone); ("top1", VInt 0)].
Proof.
  refine (proj1 (proj2 (proj2 (flatten_paths
            [("loss", VDict [("total", VFloat 1.5); ("aux", VDict [("kl", VInt 2)])]);
             ("", VNone); ("top1", VInt 0)] "/")) _ _)).
  - intros k d [[= <- <-] | [[=] | [[=] | []]]]. discriminate.
  - vm_compute. repeat constructor; simpl; intuition discriminate.
Defined.

(** ** The store: what the functions leave unchanged *)

Lemma keeps_ret {A} h0 (a : A) (Q : A -> Prop) : Q a -> keeps h0 (Store.ret a) Q.
Proof. intros HQ st H. split; [exact H | now intros a' [= <-]]. Qed.

Lemma keeps_raise {A} h0 e (Q : A -> Prop) : keeps h0 (Store.raise e) Q.
Proof. intros st H. split; [exact H | discriminate]. Qed.

Lemma keeps_lift {A} h0 (r : result A) : keeps h0 (Store.lift r) (fun _ => True).
Proof. intros st H. split; [exact H | trivial]. Qed.

Lemma keeps_bind {A B} h0 (m : Store.SM A) (f : A -> Store.SM B) Q R :
  keeps h0 m Q -> (forall a, Q a -> keeps h0 (f a) R) -> keeps h0 (Store.bind m f) R.
Proof.
  intros Hm Hf st H. unfold Store.bind.
  destruct (Hm st H) as [H' HQ]. destruct (m st) as [st' [a|e]]; simpl in *.
  - exact (Hf a (HQ a eq_refl) st' H').
  - split; [exact H' | discriminate].
Qed.

Lemma keeps_weaken {A} h0 (m : Store.SM A) (Q Q' : A -> Prop) :
  keeps h0 m Q -> (forall a, Q a -> Q' a) -> keeps h0 m Q'.
Proof.
  intros Hm HQ st H. destruct (Hm st H) as [H' Ha]. split; [exact H'|].
  intros a E. exact (HQ a (Ha a E)).
Qed.

(** A new object is none of those of [h0]. *)
Lemma keeps_alloc h0 o : keeps h0 (Store.alloc o) (fun l => h0 !! l = None).
Proof.
  intros st H. unfold Store.alloc. simpl.
  assert (Hfresh : h0 !! fresh (dom (Store.heap st)) = None).
  { apply (lookup_weaken_None _ (Store.heap st)); [|exact H].
    apply not_elem_of_dom, is_fresh. }
  split; [now apply insert_subseteq_r | now intros a [= <-]].
Qed.

Lemma keeps_read h0 l : keeps h0 (Store.read l) (fun _ => True).
Proof.
  intros st H. unfold Store.read. destruct (Store.heap st !! l); now split.
Qed.

(** An update of an object that is none of those of [h0]. *)
Lemma keeps_write h0 l o :
  h0 !! l = None -> keeps h0 (Store.write l o) (fun _ => True).
Proof.
  intros Hl st H. unfold Store.write. simpl. split; [now apply insert_subseteq_r | trivial].
Qed.

Lemma keeps_add_scalar h0 name value step :
  keeps h0 (Store.add_scalar name value step) (fun _ => True).
Proof. intros st H. now split. Qed.

Lemma keeps_for_each {A} h0 (l : list A) (body : A -> Store.SM unit) :
  (forall x, keeps h0 (body x) (fun _ => True)) ->
  keeps h0 (Store.for_each l body) (fun _ => True).
Proof.
  intros Hbody. induction l as [|x l IH]; simpl.
  - now apply keeps_ret.
  - eapply keeps_bind; [apply Hbody | intros _ _; exact IH].
Qed.

(** A computation that reads an object and goes on without an update. *)
Local Ltac keeps_reading :=
  eapply keeps_bind; [apply keeps_read|];
  intros [?|?] _; first [now apply keeps_ret | apply keeps_raise].

Lemma keeps_isinstance_dict h0 v : keeps h0 (Store.isinstance_dict v) (fun _ => True).
Proof. destruct v; try (now apply keeps_ret). keeps_reading. Qed.

Lemma keeps_isinstance_list h0 v : keeps h0 (Store.isinstance_list v) (fun _ => True).
Proof. destruct v; try (now apply keeps_ret). keeps_reading. Qed.

Lemma keeps_dict_items h0 v : keeps h0 (Store.dict_items v) (fun _ => True).
Proof. destruct v; try apply keeps_raise. keeps_reading. Qed.

Lemma keeps_list_elems h0 v : keeps h0 (Store.list_elems v) (fun _ => True).
Proof. destruct v; try apply keeps_raise. keeps_reading. Qed.

Lemma keeps_py_bool h0 v : keeps h0 (Store.py_bool v) (fun _ => True).
Proof.
  destruct v; try (now apply keeps_ret); [apply keeps_lift|].
  eapply keeps_bind; [apply keeps_read|]. intros o _. now apply keeps_ret.
Qed.

Lemma keeps_list_extend h0 items xs :
  h0 !! items = None -> keeps h0 (Store.list_extend items xs) (fun _ => True).
Proof.
  intros H. eapply keeps_bind; [apply keeps_read|].
  intros [?|?] _; [apply keeps_raise | now apply keeps_write].
Qed.

Lemma keeps_new_dict h0 items : keeps h0 (Store.new_dict items) (fun _ => True).
Proof.
  eapply keeps_bind; [apply keeps_read|].
  intros [?|es] _; [apply keeps_raise|].
  destruct (Store.items_of es) as [kvs|]; [|apply keeps_raise].
  eapply keeps_bind; [apply keeps_alloc|]. intros new_dict _. now apply keeps_ret.
Qed.

Lemma keeps_flatten_item h0 flatten items parent_key separator item :
  (forall dictionary parent_key separator,
     keeps h0 (flatten dictionary parent_key separator) (fun _ => True)) ->
  h0 !! items = None ->
  keeps h0 (Store.flatten_item flatten items parent_key separator item) (fun _ => True).
Proof.
  intros Hrec Hitems. unfold Store.flatten_item.
  eapply keeps_bind; [apply keeps_isinstance_dict|]. intros [|] _.
  - eapply keeps_bind; [apply Hrec|]. intros flat _.
    eapply keeps_bind; [apply keeps_dict_items|]. intros flat_items _.
    now apply keeps_list_extend.
  - now apply keeps_list_extend.
Qed.

(** [flatten] updates the list [items] that it allocates and nothing else. *)
Lemma keeps_flatten h0 fuel :
  forall dictionary parent_key separator,
  keeps h0 (Store.flatten fuel dictionary parent_key separator) (fun _ => True).
Proof.
  induction fuel as [|fuel IH]; intros dictionary parent_key separator; simpl.
  - apply keeps_raise.
  - eapply keeps_bind; [apply keeps_alloc|]. intros items Hitems.
    eapply keeps_bind; [apply keeps_dict_items|]. intros entries _.
    eapply keeps_bind; [|intros _ _; apply keeps_new_dict].
    apply keeps_for_each. intros item. now apply keeps_flatten_item.
Qed.

Lemma keeps_get_batch_size h0 fuel :
  forall x, keeps h0 (Store.get_batch_size fuel x) (fun _ => True).
Proof.
  induction fuel as [|fuel IH]; intros x; simpl; [apply keeps_raise|].
  destruct x; try apply keeps_raise; [apply keeps_lift|].
  eapply keeps_bind; [apply keeps_read|]. intros [d|es] _; [|now apply keeps_ret].
  destruct (first_modality_key d) as [key|]; [|apply keeps_raise].
  destruct (Dict.get key d); [apply IH | apply keeps_raise].
Qed.

Lemma keeps_lrs_list h0 lrs : keeps h0 (Store.lrs_list lrs) (fun _ => True).
Proof.
  eapply keeps_bind; [apply keeps_isinstance_list|]. intros [|] _.
  - now apply keeps_ret.
  - eapply keeps_bind; [apply keeps_alloc|]. intros new_list _. now apply keeps_ret.
Qed.

Lemma keeps_log_lrs h0 round_float lrs step :
  keeps h0 (Store.log_lrs round_float lrs step) (fun _ => True).
Proof.
  eapply keeps_bind; [apply keeps_list_elems|]. intros elems _.
  apply keeps_for_each. intros g.
  eapply keeps_bind; [apply keeps_lift|]. intros v _. apply keeps_add_scalar.
Qed.

Lemma keeps_log_metrics h0 round_float lrs train_loss val_loss epoch best_metric
    val_ema_loss ckpt_metric_name train_ckpt_metric val_ckpt_metric val_ema_ckpt_metric :
  keeps h0
    (Store.log_metrics round_float lrs train_loss val_loss epoch best_metric
       val_ema_loss ckpt_metric_name train_ckpt_metric val_ckpt_metric
       val_ema_ckpt_metric)
    (fun _ => True).
Proof.
  eapply keeps_bind; [apply keeps_lrs_list|]. intros lrs' _.
  eapply keeps_bind; [apply keeps_log_lrs|]. intros _ _.
  eapply keeps_bind; [apply keeps_lift|]. intros v _. apply keeps_add_scalar.
Qed.

Lemma keeps_step_log_metrics h0 round_float fuel lrs step metrics :
  keeps h0 (Store.step_log_metrics round_float fuel lrs step metrics) (fun _ => True).
Proof.
  eapply keeps_bind; [apply keeps_lrs_list|]. intros lrs' _.
  eapply keeps_bind; [apply keeps_log_lrs|]. intros _ _.
  assert (G : keeps h0
    (Store.bind (Store.flatten fuel metrics "" "/") (fun flattened_metrics =>
     Store.bind (Store.dict_items flattened_metrics) (fun entries =>
     Store.for_each entries (fun item =>
       Store.bind (if Store.is_Number (snd item) then Store.ret true
                   else Store.py_bool (snd item))
         (fun keep => if keep then Store.add_scalar (fst item) (snd item) step
                      else Store.ret tt)))))
    (fun _ => True)).
  { eapply keeps_bind; [apply keeps_flatten|]. intros flat _.
    eapply keeps_bind; [apply keeps_dict_items|]. intros entries _.
    apply keeps_for_each. intros [name value]. cbn [fst snd].
    eapply keeps_bind with (Q := fun _ => True).
    - destruct (Store.is_Number value); [now apply keeps_ret | apply keeps_py_bool].
    - intros [|] _; [apply keeps_add_scalar | now apply keeps_ret]. }
  destruct metrics; try exact G. now apply keeps_ret.
Qed.

(** C7. Every list and dictionary of the store, those of the arguments
    among them, has after a call of [flatten], [get_batch_size],
    [log_metrics] or [step_log_metrics] the contents it had before, however
    the call ends. *)
Theorem arguments_unchanged (st : Store.state) (l : Store.loc) (o : Store.obj) :
  Store.heap st !! l = Some o ->
  (forall fuel dictionary parent_key separator,
     Store.heap (fst (Store.flatten fuel dictionary parent_key separator st)) !! l
     = Some o) /\
  (forall fuel x, Store.heap (fst (Store.get_batch_size fuel x st)) !! l = Some o) /\
  (forall round_float lrs train_loss val_loss epoch best_metric val_ema_loss
      ckpt_metric_name train_ckpt_metric val_ckpt_metric val_ema_ckpt_metric,
     Store.heap
       (fst (Store.log_metrics round_float lrs train_loss val_loss epoch best_metric
               val_ema_loss ckpt_metric_name train_ckpt_metric val_ckpt_metric
               val_ema_ckpt_metric st)) !! l = Some o) /\
  (forall round_float fuel lrs step metrics,
     Store.heap (fst (Store.step_log_metrics round_float fuel lrs step metrics st)) !! l
     = Some o).
Proof.
  intros Hl.
  assert (G : forall A (m : Store.SM A),
            keeps (Store.heap st) m (fun _ => True) ->
            Store.heap (fst (m st)) !! l = Some o).
  { intros A m Hm. destruct (Hm st (reflexivity _)) as [Hsub _].
    exact (lookup_weaken _ _ _ _ Hl Hsub). }
  repeat split; intros; apply G.
  - apply keeps_flatten.
  - apply keeps_get_batch_size.
  - apply keeps_log_metrics.
  - apply keeps_step_log_metrics.
Qed.

(** A store in which the metrics dictionary [1] holds the dictionary [2]
    and the list [3] of learning rates: after [step_log_metrics] the three
    objects are as they were. *)
Lemma arguments_unchanged_witness :
  let st :=
    Store.State
      (<[3%positive := Store.OList [Store.SFloat 0.5; Store.SFloat 0.25]]>
         (<[2%positive := Store.ODict [("total", Store.SFloat 1.5)]]>
            (<[1%positive := Store.ODict [("loss", Store.SRef 2%positive);
                                          ("top1", Store.SInt 0)]]> ∅))) [] in
  let st' :=
    fst (Store.step_log_metrics (fun f _ => f) 1000 (Store.SRef 3%positive) 7
           (Store.SRef 1%positive) st) in
  Store.heap st' !! 1%positive =
    Some (Store.ODict [("loss", Store.SRef 2%positive); ("top1", Store.SInt 0)]) /\
  Store.heap st' !! 2%positive = Some (Store.ODict [("total", Store.SFloat 1.5)]) /\
  Store.heap st' !! 3%positive =
    Some (Store.OList [Store.SFloat 0.5; Store.SFloat 0.25]).
Proof.
  intros st st'. split; [|split].
  - apply (arguments_unchanged st 1%positive); reflexivity.
  - apply (arguments_unchanged st 2%positive); reflexivity.
  - apply (arguments_unchanged st 3%positive); reflexivity.
Defined.

(** ** The store: the functions compute what they compute on values *)

Lemma bind_run {A B} (m : Store.SM A) (f : A -> Store.SM B) st st' a :
  m st = (st', Ok a) -> Store.bind m f st = f a st'.
Proof. intros E. unfold Store.bind. now rewrite E. Qed.

Lemma read_run st l o :
  Store.heap st !! l = Some o -> Store.read l st = (st, Ok o).
Proof. intros E. unfold Store.read. now rewrite E. Qed.

Lemma alloc_run st o :
  Store.alloc o st =
  (Store.State (<[fresh (dom (Store.heap st)) := o]> (Store.heap st)) (Store.calls st),
   Ok (fresh (dom (Store.heap st)))).
Proof. reflexivity. Qed.

Lemma depth_In (d : list (string * pyval)) k v :
  In (k, v) d -> depth v < depth (VDict d).
Proof.
  simpl. induction d as [|[k' v'] d IH]; [intros []|].
  intros [[= -> ->]|Hin]; [lia|]. specialize (IH Hin). lia.
Qed.

Lemma isinstance_dict_repr h0 e v st :
  repr h0 e v -> h0 ⊆ Store.heap st ->
  Store.isinstance_dict e st = (st, Ok (is_MutableMapping v)).
Proof.
  intros Hr Hsub. destruct Hr as [| | | | | |l es vs Hl _|l es d Hl _]; try reflexivity;
    simpl; now rewrite (bind_run _ _ _ _ _ (read_run _ _ _ (lookup_weaken _ _ _ _ Hl Hsub))).
Qed.

Lemma dict_items_run st l es :
  Store.heap st !! l = Some (Store.ODict es) ->
  Store.dict_items (Store.SRef l) st = (st, Ok es).
Proof. intros E. simpl. now rewrite (bind_run _ _ _ _ _ (read_run _ _ _ E)). Qed.

Lemma list_extend_run st items es xs :
  Store.heap st !! items = Some (Store.OList es) ->
  Store.list_extend items xs st =
  (Store.State (<[items := Store.OList (es ++ xs)]> (Store.heap st)) (Store.calls st),
   Ok tt).
Proof.
  intros E. unfold Store.list_extend.
  now rewrite (bind_run _ _ _ _ _ (read_run _ _ _ E)).
Qed.

Lemma items_of_tuples (kvs : list (string * Store.val)) :
  Store.items_of (map (fun kv => Store.STuple2 (fst kv) (snd kv)) kvs) = Some kvs.
Proof.
  induction kvs as [|[k v] kvs IH]; [reflexivity|]. simpl. now rewrite IH.
Qed.

Lemma set_items_repr h key e v es d :
  repr h e v -> items_repr h es d ->
  items_repr h (Dict.set key e es) (Dict.set key v d).
Proof.
  intros Hr. induction 1 as [|[k1 e1] [k2 v2] es d [Hk Hv] Htl IH]; simpl.
  - repeat constructor. exact Hr.
  - simpl in Hk. subst k2. destruct (String.eqb key k1).
    + constructor; [now split | exact Htl].
    + constructor; [now split | exact IH].
Qed.

(** [dict(items)] on items that stand for items. *)
Lemma of_items_repr h es d :
  items_repr h es d -> items_repr h (Dict.of_items es) (Dict.of_items d).
Proof.
  unfold Dict.of_items.
  enough (G : forall es d, items_repr h es d -> forall acc_s acc,
            items_repr h acc_s acc ->
            items_repr h
              (fold_left (fun d kv => Dict.set (fst kv) (snd kv) d) es acc_s)
              (fold_left (fun d kv => Dict.set (fst kv) (snd kv) d) d acc)).
  { intros H. apply G; [exact H | constructor]. }
  clear es d. induction 1 as [|[k1 e1] [k2 v2] es d [Hk Hv] _ IH]; intros acc_s acc Hacc;
    [exact Hacc|].
  simpl in *. subst k2. apply IH. now apply set_items_repr.
Qed.

Lemma flatten_value_not_mapping (v : pyval) key separator :
  is_MutableMapping v = false -> flatten_value v key separator = [(key, v)].
Proof. destruct v; try reflexivity. discriminate. Qed.

(** The loop of [flatten] on items that stand for the items of a
    dictionary adds to [items] what the loop on the dictionary adds. *)
Lemma flatten_loop_refines h0 (rec : Store.val -> string -> string -> Store.SM Store.val)
    items parent_key separator :
  h0 !! items = None ->
  (forall h dictionary parent_key separator,
     keeps h (rec dictionary parent_key separator) (fun _ => True)) ->
  forall es d, items_repr h0 es d ->
  (forall k l es' d' key st,
     In (k, VDict d') d -> items_repr h0 es' d' -> h0 !! l = Some (Store.ODict es') ->
     h0 ⊆ Store.heap st ->
     exists st' lr flat,
       rec (Store.SRef l) key separator st = (st', Ok (Store.SRef lr)) /\
       Store.heap st' !! lr = Some (Store.ODict flat) /\
       items_repr h0 flat (flatten d' key separator) /\
       Store.calls st' = Store.calls st) ->
  forall st acc_s acc,
    h0 ⊆ Store.heap st ->
    Store.heap st !! items =
      Some (Store.OList (map (fun kv => Store.STuple2 (fst kv) (snd kv)) acc_s)) ->
    items_repr h0 acc_s acc ->
    exists st' acc_s',
      Store.for_each es (Store.flatten_item rec items parent_key separator) st =
      (st', Ok tt) /\
      h0 ⊆ Store.heap st' /\
      Store.heap st' !! items =
        Some (Store.OList (map (fun kv => Store.STuple2 (fst kv) (snd kv)) acc_s')) /\
      items_repr h0 acc_s'
        (acc ++ flat_map (fun item =>
                  flatten_value (snd item) (new_key parent_key separator (fst item))
                    separator) d) /\
      Store.calls st' = Store.calls st.
Proof.
  intros Hitems Hkeeps es d Hes.
  induction Hes as [|[k e] [k' v] es d [Hk Hv] _ IH]; intros Hrec st acc_s acc Hsub Hl Hacc.
  - exists st, acc_s. simpl. rewrite app_nil_r. now repeat split.
  - cbn [fst snd] in Hk, Hv. subst k'. cbn [Store.for_each flat_map fst snd].
    set (key := new_key parent_key separator k).
    assert (Hstep : exists st1 new_s,
              Store.flatten_item rec items parent_key separator (k, e) st = (st1, Ok tt) /\
              h0 ⊆ Store.heap st1 /\
              Store.heap st1 !! items =
                Some (Store.OList (map (fun kv => Store.STuple2 (fst kv) (snd kv))
                                     (acc_s ++ new_s))) /\
              items_repr h0 new_s (flatten_value v key separator) /\
              Store.calls st1 = Store.calls st).
    { unfold Store.flatten_item. cbn [fst snd]. fold key.
      rewrite (bind_run _ _ _ _ _ (isinstance_dict_repr _ _ _ _ Hv Hsub)).
      destruct (is_MutableMapping v) eqn:Hmap.
      - destruct Hv as [| | | | | | |l es' d' Hl' Hes']; try discriminate Hmap.
        destruct (Hrec k l es' d' key st (or_introl eq_refl) Hes' Hl' Hsub)
          as (st1 & lr & flat & E & Hlr & Hflat & Hcalls).
        destruct (Hkeeps h0 (Store.SRef l) key separator st Hsub) as [Hsub1 _].
        destruct (Hkeeps (Store.heap st) (Store.SRef l) key separator st (reflexivity _))
          as [Hsame _].
        rewrite E in Hsub1, Hsame. cbn [fst] in Hsub1, Hsame.
        rewrite (bind_run _ _ _ _ _ E), (bind_run _ _ _ _ _ (dict_items_run _ _ _ Hlr)).
        assert (Hl1 : Store.heap st1 !! items =
                  Some (Store.OList (map (fun kv => Store.STuple2 (fst kv) (snd kv)) acc_s))).
        { exact (lookup_weaken _ _ _ _ Hl Hsame). }
        rewrite (list_extend_run _ _ _ _ Hl1). eexists _, flat.
        split; [reflexivity|]. cbn [Store.heap Store.calls].
        split; [now apply insert_subseteq_r|].
        split; [now rewrite lookup_insert_eq, map_app|]. now split.
      - unfold Store.list_append. rewrite (list_extend_run _ _ _ _ Hl).
        eexists _, [(key, e)].
        split; [reflexivity|]. cbn [Store.heap Store.calls].
        split; [now apply insert_subseteq_r|].
        split; [now rewrite lookup_insert_eq, map_app|].
        rewrite (flatten_value_not_mapping _ _ _ Hmap).
        split; [|reflexivity]. repeat constructor. exact Hv. }
    destruct Hstep as (st1 & new_s & E1 & Hsub1 & Hl1 & Hnew & Hcalls1).
    destruct (IH (fun k0 l0 es0 d0 key0 st0 Hin => Hrec k0 l0 es0 d0 key0 st0
                                                   (or_intror Hin))
                st1 (acc_s ++ new_s) (acc ++ flatten_value v key separator) Hsub1 Hl1)
      as (st' & acc_s' & E & Hsub' & Hl' & Hacc' & Hcalls').
    { now apply Forall2_app. }
    exists st', acc_s'. rewrite (bind_run _ _ _ _ _ E1), E, List.app_assoc.
    repeat split; try assumption. congruence.
Qed.

(** On a dictionary of the store that stands for a nested dictionary, and
    with fuel for its depth, [flatten] returns a new dictionary that stands
    for the flattened one; its values are those of the argument, not
    copies, and the log writer receives nothing. *)
Lemma flatten_refines h0 fuel :
  forall d es parent_key separator st l,
    items_repr h0 es d -> depth (VDict d) <= fuel ->
    h0 ⊆ Store.heap st -> h0 !! l = Some (Store.ODict es) ->
    exists st' lr flat,
      Store.flatten fuel (Store.SRef l) parent_key separator st =
      (st', Ok (Store.SRef lr)) /\
      Store.heap st' !! lr = Some (Store.ODict flat) /\
      items_repr h0 flat (flatten d parent_key separator) /\
      Store.calls st' = Store.calls st.
Proof.
  induction fuel as [|fuel IH]; intros d es parent_key separator st l Hes Hdepth Hsub Hl.
  - simpl in Hdepth. lia.
  - cbn [Store.flatten].
    set (items := fresh (dom (Store.heap st))).
    set (st1 := Store.State (<[items := Store.OList []]> (Store.heap st)) (Store.calls st)).
    assert (Hitems : h0 !! items = None).
    { apply (lookup_weaken_None _ (Store.heap st)); [|exact Hsub].
      apply not_elem_of_dom, is_fresh. }
    assert (Hsub1 : h0 ⊆ Store.heap st1) by now apply insert_subseteq_r.
    rewrite (bind_run _ _ _ _ _ (alloc_run st _)). fold items. fold st1.
    rewrite (bind_run _ _ _ _ _ (dict_items_run _ _ _ (lookup_weaken _ _ _ _ Hl Hsub1))).
    destruct (flatten_loop_refines h0 (Store.flatten fuel) items parent_key separator
                Hitems (fun h => keeps_flatten h fuel) es d Hes) with
      (st := st1) (acc_s := @nil (string * Store.val)) (acc := @nil (string * pyval))
      as (st2 & acc_s & E & Hsub2 & Hl2 & Hacc & Hcalls).
    + intros k l' es' d' key st0 Hin Hes' Hl' Hsub0.
      apply (IH d' es' key separator st0 l' Hes'); try assumption.
      pose proof (depth_In _ _ _ Hin). lia.
    + exact Hsub1.
    + apply lookup_insert_eq.
    + constructor.
    + rewrite (bind_run _ _ _ _ _ E). unfold Store.new_dict.
      rewrite (bind_run _ _ _ _ _ (read_run _ _ _ Hl2)), items_of_tuples.
      rewrite (bind_run _ _ _ _ _ (alloc_run st2 _)).
      eexists _, _, _. split; [reflexivity|]. cbn [Store.heap Store.calls].
      split; [apply lookup_insert_eq|]. split; [|exact Hcalls].
      rewrite flatten_items. now apply of_items_repr.
Qed.

(** Induction on values that reaches the elements of a list and the
    values of a dictionary. *)
Lemma pyval_full_ind (P : pyval -> Prop) :
  (forall x, (forall l, x <> VList l) -> (forall d, x <> VDict d) -> P x) ->
  (forall l, Forall P l -> P (VList l)) ->
  (forall d, Forall (fun kv => P (snd kv)) d -> P (VDict d)) ->
  forall x, P x.
Proof.
  intros Hleaf Hlist Hdict.
  fix IH 1. intros x.
  destruct x as [| | | | |l|d|]; try (apply Hleaf; intros ? E; discriminate E).
  - apply Hlist. induction l as [|x l IHl]; constructor; [apply IH | exact IHl].
  - apply Hdict. induction d as [|[k x] d IHd]; constructor; [apply IH | exact IHd].
Qed.

(** What stands for a value in a store still does in a store that holds
    the same objects and more. *)
Lemma repr_weaken h h' : h ⊆ h' -> forall v e, repr h e v -> repr h' e v.
Proof.
  intros Hsub v. induction v as [x Hl Hd | vs IH | d IH] using pyval_full_ind;
    intros e Hr.
  - destruct Hr; try constructor;
      [exact (False_ind _ (Hl _ eq_refl)) | exact (False_ind _ (Hd _ eq_refl))].
  - inversion Hr as [| | | | | |l es vs' Hl Hes|]; subst.
    apply (repr_List h' l es vs); [exact (lookup_weaken _ _ _ _ Hl Hsub)|].
    clear Hr Hl. induction Hes as [|e v es vs Hv _ IHes]; constructor.
    + inversion IH; subst. auto.
    + apply IHes. now inversion IH.
  - inversion Hr as [| | | | | | |l es d' Hl Hes]; subst.
    apply (repr_Dict h' l es d); [exact (lookup_weaken _ _ _ _ Hl Hsub)|].
    clear Hr Hl. induction Hes as [|[k e] [k' v] es d [Hk Hv] _ IHes]; constructor.
    + split; [exact Hk|]. inversion IH; subst. auto.
    + apply IHes. now inversion IH.
Qed.

(** X22. [flatten] on the store computes [flatten]: on a value of the
    store that stands for a nested dictionary, with a recursion limit of
    its depth or more, it returns, without [RecursionError], a value that
    stands for the flattened dictionary, and the log writer receives
    nothing. *)
Lemma flatten_store_refines (st : Store.state) (x : Store.val)
    (d : list (string * pyval)) (fuel : nat) (parent_key separator : string) :
  repr (Store.heap st) x (VDict d) -> depth (VDict d) <= fuel ->
  exists st' r,
    Store.flatten fuel x parent_key separator st = (st', Ok r) /\
    repr (Store.heap st') r (VDict (flatten d parent_key separator)) /\
    Store.calls st' = Store.calls st.
Proof.
  intros Hr Hdepth.
  inversion Hr as [| | | | | | |l es d' Hl Hes]; subst.
  destruct (flatten_refines (Store.heap st) fuel d es parent_key separator st l
              Hes Hdepth (reflexivity _) Hl) as (st' & lr & flat & E & Hlr & Hflat & Hc).
  exists st', (Store.SRef lr). split; [exact E|]. split; [|exact Hc].
  destruct (keeps_flatten (Store.heap st) fuel (Store.SRef l) parent_key separator st
              (reflexivity _)) as [Hsub _].
  rewrite E in Hsub. cbn [fst] in Hsub.
  apply (repr_Dict _ lr flat); [exact Hlr|].
  eapply Forall2_impl; [exact Hflat|].
  intros [k e] [k' v] [Hk Hv]. split; [exact Hk|]. exact (repr_weaken _ _ Hsub _ _ Hv).
Qed.

Lemma items_repr_get h es d key :
  items_repr h es d ->
  match Dict.get key es, Dict.get key d with
  | Some e, Some v => repr h e v
  | None, None => True
  | _, _ => False
  end.
Proof.
  induction 1 as [|[k e] [k' v] es d [Hk Hv] _ IH]; simpl; [exact I|].
  simpl in Hk. subst k'. now destruct (String.eqb key k).
Qed.

Lemma items_repr_first_modality_key h es d :
  items_repr h es d -> first_modality_key es = first_modality_key d.
Proof.
  intros H. unfold first_modality_key, modality_keys, Dict.mem. simpl.
  pose proof (items_repr_get h es d "image" H) as Hi.
  pose proof (items_repr_get h es d "video" H) as Hv.
  pose proof (items_repr_get h es d "audio" H) as Ha.
  destruct (Dict.get "image" es), (Dict.get "image" d); try contradiction;
    destruct (Dict.get "video" es), (Dict.get "video" d); try contradiction;
    destruct (Dict.get "audio" es), (Dict.get "audio" d); try contradiction;
    reflexivity.
Qed.

(** X23. [get_batch_size] on the store computes [get_batch_size]: on a
    value of the store that stands for a nested value, with a recursion
    limit above its depth, its outcome is that of [get_batch_size] on the
    nested value, and the store is as it was. *)
Lemma get_batch_size_store_refines (fuel : nat) :
  forall (st : Store.state) (x : Store.val) (v : pyval),
    repr (Store.heap st) x v -> depth v < fuel ->
    Store.get_batch_size fuel x st = (st, get_batch_size v).
Proof.
  induction fuel as [|fuel IH]; intros st x v Hr Hdepth; [lia|].
  rewrite get_batch_size_eq.
  destruct Hr as [| | | | | |l es vs Hl Hes|l es d Hl Hes]; try reflexivity.
  - cbn [Store.get_batch_size]. rewrite (bind_run _ _ _ _ _ (read_run _ _ _ Hl)).
    unfold Store.ret. now rewrite (Forall2_length _ _ _ Hes).
  - cbn [Store.get_batch_size]. rewrite (bind_run _ _ _ _ _ (read_run _ _ _ Hl)).
    rewrite (items_repr_first_modality_key _ _ _ Hes).
    destruct (first_modality_key d) as [key|]; [|reflexivity].
    pose proof (items_repr_get _ _ _ key Hes) as Hg.
    destruct (Dict.get key es) as [e|], (Dict.get key d) as [v|] eqn:Hd;
      try contradiction; [|reflexivity].
    apply IH; [exact Hg|].
    pose proof (depth_In _ _ _ (get_In _ _ _ Hd)). lia.
Qed.

(** * Part III: further properties *)

(** ** flatten *)

Lemma new_key_top separator key : new_key "" separator key = key.
Proof. reflexivity. Qed.

(** A dictionary without mapping values and with distinct keys is its own
    flattening. *)
Lemma flatten_flat (d : list (string * pyval)) (separator : string) :
  List.NoDup (map fst d) ->
  (forall k v, In (k, v) d -> is_MutableMapping v = false) ->
  flatten d "" separator = d.
Proof.
  intros Hnd Hflat. rewrite flatten_items.
  assert (E : flat_map (fun item => flatten_value (snd item)
                                      (new_key "" separator (fst item)) separator) d = d).
  { clear Hnd. induction d as [|[k v] d IH]; [reflexivity|].
    cbn [flat_map fst snd].
    rewrite (flatten_value_not_mapping v _ _ (Hflat k v (or_introl eq_refl))).
    rewrite IH by (intros k' v' Hin; apply (Hflat k' v'); now right).
    reflexivity. }
  rewrite E. now apply of_items_NoDup.
Qed.

Lemma flatten_keys_NoDup (d : list (string * pyval)) parent_key separator :
  List.NoDup (map fst (flatten d parent_key separator)).
Proof. rewrite flatten_items. apply of_items_keys_NoDup. Qed.

Lemma flatten_not_mapping (d : list (string * pyval)) parent_key separator k v :
  In (k, v) (flatten d parent_key separator) -> is_MutableMapping v = false.
Proof.
  intros H. destruct (flatten_value_In (VDict d) _ _ _ _ H) as (path & Hp & _).
  exact (leaf_paths_not_mapping _ _ _ Hp).
Qed.

(** X1. Flattening is idempotent: the flattening of a flattened dictionary,
    whatever the parent key it was built under, is that dictionary. *)
Theorem flatten_idempotent (d : list (string * pyval)) (parent_key separator : string) :
  flatten (flatten d parent_key separator) "" separator =
  flatten d parent_key separator.
Proof.
  apply flatten_flat; [apply flatten_keys_NoDup|].
  intros k v. apply flatten_not_mapping.
Qed.

(** *** Lookup in [dict(items)] *)

Lemma get_app {V} key (a b : list (string * V)) :
  Dict.get key (a ++ b) =
  match Dict.get key a with
  | Some v => Some v
  | None => Dict.get key b
  end.
Proof.
  induction a as [|[k v] a IH]; [reflexivity|]. simpl.
  destruct (String.eqb key k); [reflexivity | exact IH].
Qed.

Lemma get_set {V} key k (v : V) d :
  Dict.get key (Dict.set k v d) =
  if String.eqb key k then Some v else Dict.get key d.
Proof.
  induction d as [|[k' w] d IH]; simpl; [now destruct (String.eqb key k)|].
  destruct (String.eqb_spec k k') as [->|Hne]; simpl.
  - now destruct (String.eqb key k').
  - destruct (String.eqb_spec key k') as [->|_].
    + destruct (String.eqb_spec k' k); [congruence | reflexivity].
    + exact IH.
Qed.

(** [dict(items)] binds a key to the value of its last item. *)
Lemma of_items_get {V} key (items : list (string * V)) :
  Dict.get key (Dict.of_items items) = Dict.get key (rev items).
Proof.
  unfold Dict.of_items.
  enough (G : forall acc,
            Dict.get key (fold_left (fun d kv => Dict.set (fst kv) (snd kv) d) items acc) =
            match Dict.get key (rev items) with
            | Some v => Some v
            | None => Dict.get key acc
            end).
  { rewrite G. now destruct (Dict.get key (rev items)). }
  induction items as [|[k v] items IH]; intros acc; [reflexivity|].
  cbn [fold_left rev fst snd]. rewrite IH, get_app, get_set. simpl.
  destruct (Dict.get key (rev items)); [reflexivity|].
  now destruct (String.eqb key k).
Qed.

Lemma get_rev_NoDup {V} key (d : list (string * V)) :
  List.NoDup (map fst d) -> Dict.get key (rev d) = Dict.get key d.
Proof.
  intros H.
  assert (Hr : List.NoDup (map fst (rev d))).
  { rewrite map_rev. now apply NoDup_rev. }
  destruct (Dict.get key d) as [v|] eqn:E.
  - apply (get_NoDup _ _ _ Hr), in_rev. rewrite rev_involutive.
    now apply get_In.
  - destruct (Dict.get key (rev d)) as [v|] eqn:E'; [|reflexivity].
    apply get_In, in_rev in E'. apply (get_NoDup _ _ _ H) in E'. congruence.
Qed.

Lemma flatten_value_keys_NoDup (x : pyval) key separator :
  List.NoDup (map fst (flatten_value x key separator)).
Proof.
  destruct x; try (repeat constructor; intros []).
  apply (flatten_keys_NoDup d).
Qed.

(** X2. [flatten] binds a key to the leaf of the last path, in the order
    of iteration, that is built into this key: the lookup of a key in the
    result is its lookup in the list of the paths taken backwards. *)
Theorem flatten_last_wins (d : list (string * pyval)) (parent_key separator key : string) :
  Dict.get key (flatten d parent_key separator) =
  Dict.get key
    (rev (map (fun pv => (path_key parent_key separator (fst pv), snd pv)) (paths d))).
Proof.
  change (flatten d parent_key separator)
    with (flatten_value (VDict d) parent_key separator).
  change (paths d) with (leaf_paths (VDict d)).
  generalize (VDict d). clear d. intros x. revert parent_key.
  induction x as [x Hx | d IH] using pyval_dict_ind; intros parent_key.
  - now rewrite (leaf_paths_leaf _ Hx), (flatten_value_leaf _ _ _ Hx).
  - change (flatten_value (VDict d) parent_key separator)
      with (flatten d parent_key separator).
    change (leaf_paths (VDict d)) with (paths d).
    rewrite flatten_items, of_items_get, paths_eq.
    assert (E : forall d0, (forall k v, In (k, v) d0 -> In (k, v) d) ->
      Dict.get key
        (rev (flat_map (fun item => flatten_value (snd item)
                          (new_key parent_key separator (fst item)) separator) d0)) =
      Dict.get key
        (rev (map (fun pv => (path_key parent_key separator (fst pv), snd pv))
                (flat_map (fun item => map (fun pv => (fst item :: fst pv, snd pv))
                                         (leaf_paths (snd item))) d0)))).
    { induction d0 as [|[k v] d0 IHd]; intros Hsub; [reflexivity|].
      cbn [flat_map fst snd]. rewrite map_app, !rev_app_distr, !get_app.
      rewrite IHd by (intros k' v' Hin; apply Hsub; now right).
      destruct (Dict.get key (rev (map _ (flat_map _ d0)))); [reflexivity|].
      rewrite (get_rev_NoDup _ _ (flatten_value_keys_NoDup v _ _)).
      rewrite (IH k v (Hsub k v (or_introl eq_refl))), map_map. reflexivity. }
    exact (E d (fun k v H => H)).
Qed.

(** X3. Below a parent key that is not empty, every key of the result is
    the parent key, the separator and the join of the keys of a path; the
    value is the leaf of that path. *)
Theorem flatten_under_parent (d : list (string * pyval)) (parent_key separator : string)
    (k : string) (v : pyval) :
  parent_key <> "" ->
  In (k, v) (flatten d parent_key separator) ->
  exists path,
    In (path, v) (paths d) /\
    k = (parent_key ++ separator ++ String.concat separator path)%string.
Proof.
  intros Hp H.
  destruct (flatten_value_In (VDict d) _ _ _ _ H) as (path & Hin & ->).
  exists path. split; [exact Hin|].
  rewrite (path_key_nonempty _ _ _ Hp).
  apply paths_In in Hin as (k' & x & rest & _ & -> & _). reflexivity.
Qed.

Lemma flatten_under_parent_witness :
  exists path,
    In (path, VInt 2)
      (paths [("total", VFloat 1.5); ("aux", VDict [("kl", VInt 2)])]) /\
    "loss/aux/kl" = ("loss" ++ "/" ++ String.concat "/" path)%string.
Proof.
  apply (flatten_under_parent
           [("total", VFloat 1.5); ("aux", VDict [("kl", VInt 2)])] "loss" "/").
  - discriminate.
  - vm_compute. right. now left.
Defined.

Lemma flatten_value_no_leaf (x : pyval) key separator :
  leaf_paths x = [] -> flatten_value x key separator = [].
Proof.
  intros H. destruct (flatten_value x key separator) as [|[k v] items] eqn:E;
    [reflexivity|].
  destruct (flatten_value_In x key separator k v) as (path & Hin & _).
  - rewrite E. now left.
  - rewrite H in Hin. destruct Hin.
Qed.

(** X4. An item bound to a mapping without a leaf, such as the empty
    mapping or a mapping of empty mappings, leaves no trace in the result:
    the dictionary flattens as it does without the item. *)
Theorem flatten_drops_empty_mapping (d1 d2 empty : list (string * pyval))
    (k parent_key separator : string) :
  paths empty = [] ->
  flatten (d1 ++ (k, VDict empty) :: d2) parent_key separator =
  flatten (d1 ++ d2) parent_key separator.
Proof.
  intros H. rewrite !flatten_items, !flat_map_app. cbn [flat_map fst snd].
  now rewrite (flatten_value_no_leaf (VDict empty) _ _ H).
Qed.

Lemma flatten_drops_empty_mapping_witness :
  flatten ([("top1", VFloat 0.5)] ++
           ("extra", VDict [("a", VDict []); ("b", VDict [("c", VDict [])])]) ::
           [("loss", VFloat 1.5)]) "" "/" =
  flatten ([("top1", VFloat 0.5)] ++ [("loss", VFloat 1.5)]) "" "/".
Proof.
  apply flatten_drops_empty_mapping. reflexivity.
Defined.

(** X5. [step_log_metrics] makes the same calls and ends in the same way
    on a dictionary of metrics and on its flattening. *)
Theorem step_log_metrics_flattened (round_float : float -> Z -> float)
    (lrs : pyval) (step : Z) (metrics : list (string * pyval)) :
  step_log_metrics round_float lrs step (VDict (flatten metrics "" "/")) =
  step_log_metrics round_float lrs step (VDict metrics).
Proof.
  unfold step_log_metrics.
  rewrite (flatten_flat (flatten metrics "" "/") "/"); [reflexivity | |].
  - apply flatten_keys_NoDup.
  - intros k v. apply flatten_not_mapping.
Qed.

(** ** get_batch_size *)


(** ** log_metrics and step_log_metrics: how they end *)

Lemma py_round_not_number round_float v ndigits :
  is_Number v = false -> py_round round_float v ndigits = Raise TypeError.
Proof. destruct v; simpl; try discriminate; reflexivity. Qed.

(** The loop over the learning rates, past those that are numbers. *)
Lemma log_lrs_numbers_app round_float (pre rest : list pyval) (step : Z) :
  Forall (fun lr_val => is_Number lr_val = true) pre ->
  forall g_id, exists calls,
    lr_scalars round_float g_id pre step calls /\
    log_lrs round_float g_id (pre ++ rest) step =
    (calls ++ fst (log_lrs round_float (g_id + List.length pre) rest step),
     snd (log_lrs round_float (g_id + List.length pre) rest step)).
Proof.
  induction 1 as [|lr_val pre Hn _ IH]; intros g_id.
  - exists []. split.
    + split; [reflexivity|]. intros [|i] lr_val; discriminate.
    + simpl. rewrite Nat.add_0_r. now destruct (log_lrs _ _ _ _).
  - destruct (py_round_number round_float lr_val 6 Hn) as [v Hv].
    destruct (IH (S g_id)) as (calls & (Hlen & Hnth) & E).
    exists (AddScalar ("LR/Group-" ++ str_of_nat g_id)%string v step :: calls).
    split; [split|].
    + simpl. now rewrite Hlen.
    + intros [|i] lr E'; simpl in E'.
      * injection E' as <-. exists v. now rewrite Nat.add_0_r.
      * destruct (Hnth i lr E') as (w & Hw & Hi). exists w.
        now rewrite Nat.add_succ_r.
    + cbn [app log_lrs List.length]. rewrite Hv, E, Nat.add_succ_r.
      reflexivity.
Qed.

(** X7. The learning rates are logged one after the other: at the first
    one that is not a number [round] raises [TypeError], the calls of the
    learning rates before it have been made and nothing else is logged, by
    [step_log_metrics] and by [log_metrics] alike. *)
Theorem lrs_logged_until_not_number (round_float : float -> Z -> float)
    (lrs : pyval) (pre post : list pyval) (bad : pyval) (step : Z) :
  lrs_list lrs = pre ++ bad :: post ->
  Forall (fun lr_val => is_Number lr_val = true) pre ->
  is_Number bad = false ->
  exists calls,
    lr_scalars round_float 0 pre step calls /\
    (forall metrics,
       step_log_metrics round_float lrs step metrics = (calls, Raise TypeError)) /\
    (forall train_loss val_loss best_metric val_ema_loss ckpt_metric_name
        train_ckpt_metric val_ckpt_metric val_ema_ckpt_metric,
       log_metrics round_float lrs train_loss val_loss step best_metric val_ema_loss
         ckpt_metric_name train_ckpt_metric val_ckpt_metric val_ema_ckpt_metric =
       (calls, Raise TypeError)).
Proof.
  intros Hl Hpre Hbad.
  destruct (log_lrs_numbers_app round_float pre (bad :: post) step Hpre 0)
    as (calls & Hcalls & E).
  cbn [log_lrs] in E. rewrite (py_round_not_number _ _ _ Hbad) in E.
  cbn in E. rewrite app_nil_r in E.
  exists calls. split; [exact Hcalls|]. split; intros.
  - unfold step_log_metrics. now rewrite Hl, E.
  - unfold log_metrics. now rewrite Hl, E.
Qed.

Lemma lrs_logged_until_not_number_witness :
  exists calls,
    lr_scalars (fun f _ => f) 0 [VFloat 0.5] 7 calls /\
    (forall metrics,
       step_log_metrics (fun f _ => f) (VList [VFloat 0.5; VStr "auto"; VFloat 0.25]) 7
         metrics = (calls, Raise TypeError)) /\
    (forall train_loss val_loss best_metric val_ema_loss ckpt_metric_name
        train_ckpt_metric val_ckpt_metric val_ema_ckpt_metric,
       log_metrics (fun f _ => f) (VList [VFloat 0.5; VStr "auto"; VFloat 0.25])
         train_loss val_loss 7 best_metric val_ema_loss
         ckpt_metric_name train_ckpt_metric val_ckpt_metric val_ema_ckpt_metric =
       (calls, Raise TypeError)).
Proof.
  apply (lrs_logged_until_not_number (fun f _ => f)
           (VList [VFloat 0.5; VStr "auto"; VFloat 0.25])
           [VFloat 0.5] [VFloat 0.25] (VStr "auto") 7).
  - reflexivity.
  - repeat constructor.
  - reflexivity.
Defined.

(** X8. With numeric learning rates, [step_log_metrics] on [None] makes
    the calls of the learning rates and returns; on metrics that are neither
    [None] nor a dictionary it makes the same calls and then raises
    [AttributeError]. *)
Theorem step_log_metrics_without_dict (round_float : float -> Z -> float)
    (lrs : pyval) (step : Z) :
  Forall (fun lr_val => is_Number lr_val = true) (lrs_list lrs) ->
  exists calls,
    lr_scalars round_float 0 (lrs_list lrs) step calls /\
    step_log_metrics round_float lrs step VNone = (calls, Ok tt) /\
    (forall metrics, metrics <> VNone -> (forall d, metrics <> VDict d) ->
       step_log_metrics round_float lrs step metrics = (calls, Raise AttributeError)).
Proof.
  intros Hlrs.
  destruct (log_lrs_numbers round_float _ step Hlrs 0) as (calls & E & Hcalls & _).
  exists calls. split; [exact Hcalls|]. unfold step_log_metrics. rewrite E. split.
  - cbn. now rewrite app_nil_r.
  - intros metrics Hnone Hdict.
    destruct metrics; try (cbn; now rewrite app_nil_r).
    exact (False_ind _ (Hdict _ eq_refl)).
Qed.

Lemma step_log_metrics_without_dict_witness :
  exists calls,
    lr_scalars (fun f _ => f) 0 (lrs_list (VFloat 0.5)) 7 calls /\
    step_log_metrics (fun f _ => f) (VFloat 0.5) 7 VNone = (calls, Ok tt) /\
    (forall metrics, metrics <> VNone -> (forall d, metrics <> VDict d) ->
       step_log_metrics (fun f _ => f) (VFloat 0.5) 7 metrics =
       (calls, Raise AttributeError)).
Proof.
  apply (step_log_metrics_without_dict (fun f _ => f) (VFloat 0.5) 7).
  repeat constructor.
Defined.

(** X9. [log_metrics] rounds the best metric after the loop over the
    learning rates: when the best metric is not a number, the calls of the
    numeric learning rates have been made, [TypeError] is raised and there
    is no "Common/Best Metric" call. *)
Theorem log_metrics_best_metric_not_number (round_float : float -> Z -> float)
    (lrs : pyval) (epoch : Z) (best_metric : pyval)
    (train_loss val_loss val_ema_loss ckpt_metric_name train_ckpt_metric
       val_ckpt_metric val_ema_ckpt_metric : pyval) :
  Forall (fun lr_val => is_Number lr_val = true) (lrs_list lrs) ->
  is_Number best_metric = false ->
  exists calls,
    lr_scalars round_float 0 (lrs_list lrs) epoch calls /\
    log_metrics round_float lrs train_loss val_loss epoch best_metric val_ema_loss
      ckpt_metric_name train_ckpt_metric val_ckpt_metric val_ema_ckpt_metric =
    (calls, Raise TypeError).
Proof.
  intros Hlrs Hbest.
  destruct (log_lrs_numbers round_float _ epoch Hlrs 0) as (calls & E & Hcalls & _).
  exists calls. split; [exact Hcalls|].
  unfold log_metrics. rewrite E, (py_round_not_number _ _ _ Hbest).
  cbn. now rewrite app_nil_r.
Qed.

Lemma log_metrics_best_metric_not_number_witness :
  exists calls,
    lr_scalars (fun f _ => f) 0 [VFloat 0.5; VFloat 0.25] 3 calls /\
    log_metrics (fun f _ => f) (VList [VFloat 0.5; VFloat 0.25]) (VFloat 2.5)
      (VFloat 3.5) 3 VNone VNone VNone VNone VNone VNone =
    (calls, Raise TypeError).
Proof.
  apply (log_metrics_best_metric_not_number (fun f _ => f)
           (VList [VFloat 0.5; VFloat 0.25]) 3 VNone).
  - repeat constructor.
  - reflexivity.
Defined.

(** The loop over the flattened metrics, past the items whose truth value
    is defined. *)
Lemma log_flattened_app (pre rest : list (string * pyval)) (step : Z) :
  (forall k v, In (k, v) pre ->
     is_Number v = true \/ exists b, py_bool v = Ok b) ->
  log_flattened (pre ++ rest) step =
  (map (scalar_of step) (List.filter (fun item => logged (snd item)) pre) ++
   fst (log_flattened rest step),
   snd (log_flattened rest step)).
Proof.
  induction pre as [|[k v] pre IH]; intros H.
  - simpl. now destruct (log_flattened rest step).
  - cbn [app log_flattened List.filter snd].
    rewrite (is_logged_defined v (H k v (or_introl eq_refl))).
    rewrite IH by (intros k' v' Hin; apply (H k' v'); now right).
    unfold lift, bind, add_scalar, emit, ret. now destruct (logged v).
Qed.

(** X10. The flattened metrics are logged one after the other: at the
    first value that is not a number and whose truth value is not defined
    (a tensor of several elements) the exception of [bool] is raised, the
    earlier items that pass the test have been logged and the later ones
    are not. *)
Theorem metrics_logged_until_no_truth_value (round_float : float -> Z -> float)
    (lrs : pyval) (step : Z) (metrics pre post : list (string * pyval))
    (k : string) (v : pyval) (e : exn) :
  Forall (fun lr_val => is_Number lr_val = true) (lrs_list lrs) ->
  flatten metrics "" "/" = pre ++ (k, v) :: post ->
  (forall k' v', In (k', v') pre ->
     is_Number v' = true \/ exists b, py_bool v' = Ok b) ->
  is_Number v = false -> py_bool v = Raise e ->
  exists lr_calls,
    lr_scalars round_float 0 (lrs_list lrs) step lr_calls /\
    step_log_metrics round_float lrs step (VDict metrics) =
    (lr_calls ++ map (scalar_of step) (List.filter (fun item => logged (snd item)) pre),
     Raise e).
Proof.
  intros Hlrs Hflat Hpre Hnum Hbool.
  destruct (log_lrs_numbers round_float _ step Hlrs 0) as (calls & E & Hcalls & _).
  exists calls. split; [exact Hcalls|].
  unfold step_log_metrics. rewrite (bind_Ok _ _ _ _ E), Hflat.
  rewrite (log_flattened_app _ _ _ Hpre).
  cbn [log_flattened]. unfold is_logged. rewrite Hnum, Hbool.
  cbn. now rewrite app_nil_r.
Qed.

Lemma metrics_logged_until_no_truth_value_witness :
  exists lr_calls,
    lr_scalars (fun f _ => f) 0 (lrs_list (VFloat 0.5)) 7 lr_calls /\
    step_log_metrics (fun f _ => f) (VFloat 0.5) 7
      (VDict [("loss", VFloat 1.5); ("note", VNone);
              ("logits", VTensor (mkTensor [2%Z] [0.5%float; 0.25%float]));
              ("top1", VFloat 0.75)]) =
    (lr_calls ++ [AddScalar "loss" (VFloat 1.5) 7], Raise RuntimeError).
Proof.
  apply (metrics_logged_until_no_truth_value (fun f _ => f) (VFloat 0.5) 7
           [("loss", VFloat 1.5); ("note", VNone);
            ("logits", VTensor (mkTensor [2%Z] [0.5%float; 0.25%float]));
            ("top1", VFloat 0.75)]
           [("loss", VFloat 1.5); ("note", VNone)] [("top1", VFloat 0.75)]
           "logits" (VTensor (mkTensor [2%Z] [0.5%float; 0.25%float])) RuntimeError).
  - repeat constructor.
  - reflexivity.
  - intros k' v' [[= <- <-] | [[= <- <-] | []]]; [now left | right; now exists false].
  - reflexivity.
  - reflexivity.
Defined.

(** ** autocast_fn *)

(** X11. [autocast_fn] returns a context in these cases only: disabled, the
    context of [autocast(enabled=False)], without any report; enabled with
    a supported precision and a CUDA device, the context of its dtype,
    without any report; enabled with a supported precision and no CUDA
    device, the same context after the report of the missing device, if
    [logger.error] returns.  A context never carries an unsupported
    precision. *)
Theorem autocast_fn_returns_iff (logger_error_raises : string -> option exn)
    (cuda enabled : bool) (amp_precision : option string)
    (t : list event) (c : autocast) :
  autocast_fn logger_error_raises cuda enabled amp_precision = (t, Ok c) <->
  (enabled = false /\ t = [] /\ c = Autocast false None) \/
  (enabled = true /\
   exists d, dtype_of amp_precision = Some d /\ c = Autocast true (Some d) /\
     ((cuda = true /\ t = []) \/
      (cuda = false /\ logger_error_raises cuda_required_msg = None /\
       t = [LoggerError cuda_required_msg]))).
Proof.
  assert (Hback :
    (enabled = false /\ t = [] /\ c = Autocast false None) \/
    (enabled = true /\
     exists d, dtype_of amp_precision = Some d /\ c = Autocast true (Some d) /\
       ((cuda = true /\ t = []) \/
        (cuda = false /\ logger_error_raises cuda_required_msg = None /\
         t = [LoggerError cuda_required_msg]))) ->
    autocast_fn logger_error_raises cuda enabled amp_precision = (t, Ok c)).
  { unfold autocast_fn, logger_error, bind, emit, raise, ret.
    intros [(-> & -> & ->) | (-> & d & Hd & -> & [(-> & ->) | (-> & He & ->)])];
      [reflexivity | |]; rewrite Hd; cbn; [reflexivity|].
    now rewrite He. }
  split; [|exact Hback]. clear Hback.
  unfold autocast_fn, logger_error, bind, emit, raise, ret.
  destruct enabled; [|intros [= <- <-]; now left].
  destruct (dtype_of amp_precision) as [d|].
  - destruct cuda; cbn.
    + intros [= <- <-]. right. split; [reflexivity|]. exists d. tauto.
    + destruct (logger_error_raises cuda_required_msg) as [e|]; cbn;
        [discriminate|].
      intros [= <- <-]. right. split; [reflexivity|]. exists d. tauto.
  - destruct (logger_error_raises (unsupported_dtype_msg amp_precision));
      [discriminate|].
    destruct cuda; [discriminate|].
    destruct (logger_error_raises cuda_required_msg); discriminate.
Qed.

(** ** get_log_writers: what it does and what it leaves alone *)

Lemma Forall_bind {A B} (P : event -> Prop) (m : M A) (f : A -> M B) :
  Forall P (fst m) -> (forall a, Forall P (fst (f a))) -> Forall P (fst (bind m f)).
Proof.
  intros Hm Hf. destruct m as [t [a|e]]; simpl in *; [|exact Hm].
  specialize (Hf a). destruct (f a) as [t' r]. simpl in *.
  apply Forall_app. now split.
Qed.

Lemma bind_inv_Ok {A B} (m : M A) (f : A -> M B) t b :
  bind m f = (t, Ok b) ->
  exists t1 a t2, m = (t1, Ok a) /\ f a = (t2, Ok b) /\ t = t1 ++ t2.
Proof.
  destruct m as [t1 [a|e]]; simpl; [|discriminate].
  destruct (f a) as [t2 r] eqn:E. intros [= <- ->]. now exists t1, a, t2.
Qed.

Lemma constructed_app (t1 t2 : list event) :
  constructed (t1 ++ t2) = constructed t1 ++ constructed t2.
Proof.
  induction t1 as [|e t1 IH]; [reflexivity|].
  destruct e; simpl; now rewrite IH.
Qed.

(** The events of a block are its own. *)
Lemma tensorboard_block_events h opts save_location ws :
  Forall (fun e => tensorboard_event e = true)
    (fst (tensorboard_block h opts save_location ws)).
Proof.
  unfold tensorboard_block, try_import.
  destruct (py_bool _) as [[|]|]; destruct save_location;
    destruct (import_SummaryWriter h) as [failure|];
    try destruct (is_ImportError failure); cbn; repeat constructor.
Qed.

Lemma bolt_block_events h opts ws :
  Forall (fun e => bolt_event e = true) (fst (bolt_block h opts ws)).
Proof.
  unfold bolt_block, try_import.
  destruct (py_bool _) as [[|]|];
    destruct (import_BoltLogger h) as [failure|];
    try destruct (is_ModuleNotFoundError failure); cbn; repeat constructor.
Qed.

Lemma hub_block_events h opts ws :
  Forall (fun e => hub_event e = true) (fst (hub_block h opts ws)).
Proof.
  unfold hub_block, try_import.
  destruct (py_bool _) as [[|]|];
    destruct (import_HubLogger h) as [failure|];
    try destruct (is_ModuleNotFoundError failure);
    destruct (init_HubLogger h) as [ex|]; try destruct (is_Exception ex);
    cbn; repeat constructor.
Qed.

Lemma file_block_events opts save_location ws :
  Forall (fun e => file_event e = true) (fst (file_block opts save_location ws)).
Proof.
  unfold file_block, getattr.
  destruct (Dict.get _ opts) as [v|]; [|constructor].
  cbn. destruct (py_bool v) as [[|]|]; destruct save_location; cbn; repeat constructor.
Qed.

(** An event belongs to one block only. *)
Lemma block_events_disjoint (e : event) :
  (tensorboard_event e = true ->
   bolt_event e = false /\ hub_event e = false /\ file_event e = false) /\
  (bolt_event e = true ->
   tensorboard_event e = false /\ hub_event e = false /\ file_event e = false) /\
  (hub_event e = true ->
   tensorboard_event e = false /\ bolt_event e = false /\ file_event e = false) /\
  (file_event e = true ->
   tensorboard_event e = false /\ bolt_event e = false /\ hub_event e = false).
Proof.
  destruct e as [| |msg [ex|]|name| |[| | |]]; simpl;
    (split; [|split; [|split]]); intros Heq; try discriminate Heq;
    try (apply String.eqb_eq in Heq; subst); repeat split; reflexivity.
Qed.

(** The trace of [get_log_writers] is made of the events of the blocks. *)
Lemma get_log_writers_events (P : event -> Prop) h opts save_location :
  Forall P (fst (tensorboard_block h opts save_location [])) ->
  (forall ws, Forall P (fst (bolt_block h opts ws))) ->
  (forall ws, Forall P (fst (hub_block h opts ws))) ->
  (forall ws, Forall P (fst (file_block opts save_location ws))) ->
  Forall P (fst (get_log_writers h opts save_location)).
Proof.
  intros Ht Hb Hh Hf. unfold get_log_writers.
  destruct (negb (is_master h)); [constructor|].
  apply Forall_bind; [exact Ht|]. intros ws1.
  apply Forall_bind; [apply Hb|]. intros ws2.
  apply Forall_bind; [apply Hh|]. intros ws3. apply Hf.
Qed.

(** The events of a block are not those of another block. *)
Local Ltac other_block :=
  intros; eapply List.Forall_impl;
  [ | first [ apply tensorboard_block_events | apply bolt_block_events
            | apply hub_block_events | apply file_block_events ] ];
  let e := fresh "e" in let He := fresh "He" in
  intros e He; pose proof (block_events_disjoint e); cbv beta in *; tauto.

(** A block that returns gives back the list it received, followed by the
    writer it has constructed, if any. *)
Lemma tensorboard_block_constructed h opts save_location ws t ws' :
  tensorboard_block h opts save_location ws = (t, Ok ws') -> ws' = ws ++ constructed t.
Proof.
  unfold tensorboard_block, try_import.
  destruct (py_bool _) as [[|]|]; destruct save_location;
    destruct (import_SummaryWriter h) as [failure|];
    try destruct (is_ImportError failure); cbn; intros [= <- <-];
    cbn; now rewrite ?app_nil_r.
Qed.

Lemma bolt_block_constructed h opts ws t ws' :
  bolt_block h opts ws = (t, Ok ws') -> ws' = ws ++ constructed t.
Proof.
  unfold bolt_block, try_import.
  destruct (py_bool _) as [[|]|];
    destruct (import_BoltLogger h) as [failure|];
    try destruct (is_ModuleNotFoundError failure); cbn; intros [= <- <-];
    cbn; now rewrite ?app_nil_r.
Qed.

Lemma hub_block_constructed h opts ws t ws' :
  hub_block h opts ws = (t, Ok ws') -> ws' = ws ++ constructed t.
Proof.
  unfold hub_block, try_import.
  destruct (py_bool _) as [[|]|];
    destruct (import_HubLogger h) as [failure|];
    try destruct (is_ModuleNotFoundError failure);
    destruct (init_HubLogger h) as [ex|]; try destruct (is_Exception ex);
    cbn; intros [= <- <-]; cbn; now rewrite ?app_nil_r.
Qed.

Lemma file_block_constructed opts save_location ws t ws' :
  file_block opts save_location ws = (t, Ok ws') -> ws' = ws ++ constructed t.
Proof.
  unfold file_block, getattr.
  destruct (Dict.get _ opts) as [v|]; [|discriminate].
  cbn. destruct (py_bool v) as [[|]|]; destruct save_location; cbn;
    intros [= <- <-]; cbn; now rewrite ?app_nil_r.
Qed.

(** X12. When [get_log_writers] returns, the list it returns is the list
    of the writers it has constructed, in the order of their construction:
    no writer is constructed and dropped, none is returned twice. *)
Theorem get_log_writers_returns_constructed (h : host) (opts : list (string * pyval))
    (save_location : option string) (t : list event) (ws : list log_writer) :
  get_log_writers h opts save_location = (t, Ok ws) -> ws = constructed t.
Proof.
  unfold get_log_writers. destruct (negb (is_master h)); [now intros [= <- <-]|].
  intros H.
  apply bind_inv_Ok in H as (t1 & ws1 & t1' & E1 & H & ->).
  apply bind_inv_Ok in H as (t2 & ws2 & t2' & E2 & H & ->).
  apply bind_inv_Ok in H as (t3 & ws3 & t3' & E3 & E4 & ->).
  apply tensorboard_block_constructed in E1. apply bolt_block_constructed in E2.
  apply hub_block_constructed in E3. apply file_block_constructed in E4.
  rewrite !constructed_app. subst. now rewrite <- !app_assoc.
Qed.

Lemma get_log_writers_returns_constructed_witness :
  [SummaryWriter "results/tb_logs" "Training and Validation logs";
   FileLogger "results/stats.pt"] =
  constructed
    [Import "torch.utils.tensorboard.SummaryWriter"; CreateDirectories "results/tb_logs";
     New (SummaryWriter "results/tb_logs" "Training and Validation logs");
     Import "corenet.internal.utils.bolt_logger.BoltLogger";
     LoggerLog "Unable to import bolt. Disabling bolt logging" None;
     New (FileLogger "results/stats.pt")].
Proof.
  apply (get_log_writers_returns_constructed
           (Host true None (Some ModuleNotFoundError) None None)
           [("common.tensorboard_logging", VBool true); ("common.bolt_logging", VBool true);
            ("common.file_logging", VBool true)]
           (Some "results")).
  reflexivity.
Defined.

(** X13. Without a save location, whatever the options and the host,
    [get_log_writers] does nothing of the tensorboard block and of the file
    block: no import of [SummaryWriter], no directory, no [SummaryWriter]
    and no [FileLogger]. *)
Theorem get_log_writers_without_location (h : host) (opts : list (string * pyval)) :
  Forall (fun e => tensorboard_event e = false /\ file_event e = false)
    (fst (get_log_writers h opts None)).
Proof.
  apply get_log_writers_events.
  - unfold tensorboard_block. destruct (py_bool _) as [[|]|]; constructor.
  - other_block.
  - other_block.
  - intros ws. unfold file_block, getattr.
    destruct (Dict.get _ opts) as [v|]; [|constructor].
    cbn. destruct (py_bool v) as [[|]|]; constructor.
Qed.

(** X14. A backend whose option is false is left alone, whatever the host
    and however the call ends: its module is not imported, no message is
    logged for it and it is not constructed. *)
Theorem get_log_writers_disabled_backend (h : host) (opts : list (string * pyval))
    (save_location : option string) :
  (py_bool (getattr_default opts "common.tensorboard_logging" (VBool false)) = Ok false ->
   Forall (fun e => tensorboard_event e = false)
     (fst (get_log_writers h opts save_location))) /\
  (py_bool (getattr_default opts "common.bolt_logging" (VBool false)) = Ok false ->
   Forall (fun e => bolt_event e = false)
     (fst (get_log_writers h opts save_location))) /\
  (py_bool (getattr_default opts "common.hub.logging" (VBool false)) = Ok false ->
   Forall (fun e => hub_event e = false)
     (fst (get_log_writers h opts save_location))) /\
  (forall file_logging,
     getattr opts "common.file_logging" = Ok file_logging ->
     py_bool file_logging = Ok false ->
     Forall (fun e => file_event e = false)
       (fst (get_log_writers h opts save_location))).
Proof.
  repeat split.
  - intros Hflag. apply get_log_writers_events; try other_block.
    unfold tensorboard_block. rewrite Hflag. constructor.
  - intros Hflag. apply get_log_writers_events; try other_block.
    intros ws. unfold bolt_block. rewrite Hflag. constructor.
  - intros Hflag. apply get_log_writers_events; try other_block.
    intros ws. unfold hub_block. rewrite Hflag. constructor.
  - intros file_logging Hattr Hflag. apply get_log_writers_events; try other_block.
    intros ws. unfold file_block. rewrite Hattr. cbn. rewrite Hflag.
    destruct save_location; constructor.
Qed.

Lemma get_log_writers_disabled_backend_witness :
  Forall (fun e => bolt_event e = false)
    (fst (get_log_writers (Host true None None None None)
            [("common.tensorboard_logging", VBool true);
             ("common.bolt_logging", VInt 0); ("common.file_logging", VBool true)]
            (Some "results"))).
Proof.
  apply (proj1 (proj2 (get_log_writers_disabled_backend
                         (Host true None None None None)
                         [("common.tensorboard_logging", VBool true);
                          ("common.bolt_logging", VInt 0);
                          ("common.file_logging", VBool true)]
                         (Some "results")))).
  reflexivity.
Defined.

(** X15. The options of the tensorboard, bolt and hub backends have the
    default [False]: on the master node, with options that lack the three
    of them, nothing is imported whatever the host offers, and the result
    is the file logger, if its option is true and there is a save location,
    or the empty list. *)
Theorem get_log_writers_default_options (h : host) (opts : list (string * pyval))
    (save_location : option string) (file_logging : pyval) (file : bool) :
  is_master h = true ->
  Dict.get "common.tensorboard_logging" opts = None ->
  Dict.get "common.bolt_logging" opts = None ->
  Dict.get "common.hub.logging" opts = None ->
  Dict.get "common.file_logging" opts = Some file_logging ->
  py_bool file_logging = Ok file ->
  get_log_writers h opts save_location =
  (map New (file_writers save_location file), Ok (file_writers save_location file)).
Proof.
  intros Hm Ht Hb Hh Hf Hfile.
  assert (E1 : tensorboard_block h opts save_location [] = ([], Ok [])).
  { unfold tensorboard_block, getattr_default. now rewrite Ht. }
  assert (E2 : bolt_block h opts [] = ([], Ok [])).
  { unfold bolt_block, getattr_default. now rewrite Hb. }
  assert (E3 : hub_block h opts [] = ([], Ok [])).
  { unfold hub_block, getattr_default. now rewrite Hh. }
  unfold get_log_writers. rewrite Hm. simpl negb. cbv iota.
  rewrite (bind_Ok _ _ _ _ E1), (bind_Ok _ _ _ _ E2), (bind_Ok _ _ _ _ E3).
  rewrite (file_block_ok opts save_location [] file file_logging);
    [reflexivity | | exact Hfile].
  unfold getattr. now rewrite Hf.
Qed.

Lemma get_log_writers_default_options_witness :
  get_log_writers (Host true None None None None) [("common.file_logging", VBool true)]
    (Some "results/") =
  ([New (FileLogger "results/stats.pt")], Ok [FileLogger "results/stats.pt"]).
Proof.
  apply (get_log_writers_default_options (Host true None None None None)
           [("common.file_logging", VBool true)] (Some "results/") (VBool true) true);
    reflexivity.
Defined.

(** X16. The option of the file logger has no default and is read last:
    on the master node, with options that lack it, the call raises
    [AttributeError] after the other configured and available backends have
    been constructed. *)
Theorem get_log_writers_missing_file_option (h : host) (opts : list (string * pyval))
    (save_location : option string) (tensorboard bolt hub : bool) :
  is_master h = true ->
  py_bool (getattr_default opts "common.tensorboard_logging" (VBool false)) = Ok tensorboard ->
  py_bool (getattr_default opts "common.bolt_logging" (VBool false)) = Ok bolt ->
  py_bool (getattr_default opts "common.hub.logging" (VBool false)) = Ok hub ->
  (forall e, import_SummaryWriter h = Some e -> is_ImportError e = true) ->
  (forall e, import_BoltLogger h = Some e -> is_ModuleNotFoundError e = true) ->
  (forall e, import_HubLogger h = Some e -> is_ModuleNotFoundError e = true) ->
  (forall e, init_HubLogger h = Some e -> is_Exception e = true) ->
  Dict.get "common.file_logging" opts = None ->
  exists t,
    get_log_writers h opts save_location = (t, Raise AttributeError) /\
    constructed t =
    tensorboard_writers h save_location tensorboard ++ bolt_writers h bolt ++
    hub_writers h opts hub.
Proof.
  intros Hm Htb Hbolt Hhub Hsw Hbl Hhl Hinit Hattr.
  destruct (tensorboard_block_ok h opts save_location [] tensorboard Htb Hsw)
    as (t1 & E1 & _).
  destruct (bolt_block_ok h opts (tensorboard_writers h save_location tensorboard)
              bolt Hbolt Hbl) as (t2 & E2 & _).
  destruct (hub_block_ok h opts
              (tensorboard_writers h save_location tensorboard ++ bolt_writers h bolt)
              hub Hhub Hhl Hinit) as (t3 & E3 & _).
  simpl in E1.
  exists (t1 ++ t2 ++ t3). split.
  - unfold get_log_writers. rewrite Hm. simpl negb. cbv iota.
    rewrite (bind_Ok _ _ _ _ E1), (bind_Ok _ _ _ _ E2), (bind_Ok _ _ _ _ E3).
    unfold file_block, getattr. rewrite Hattr. cbn. now rewrite !app_nil_r.
  - rewrite !constructed_app.
    apply tensorboard_block_constructed in E1. apply bolt_block_constructed in E2.
    apply hub_block_constructed in E3. simpl in E1.
    apply app_inv_head in E2. apply app_inv_head in E3. congruence.
Qed.

Lemma get_log_writers_missing_file_option_witness :
  exists t,
    get_log_writers (Host true None None None None)
      [("common.tensorboard_logging", VBool true)] (Some "results") =
    (t, Raise AttributeError) /\
    constructed t = [SummaryWriter "results/tb_logs" "Training and Validation logs"].
Proof.
  apply (get_log_writers_missing_file_option (Host true None None None None)
           [("common.tensorboard_logging", VBool true)] (Some "results")
           true false false); try reflexivity; intros e [=].
Defined.

(** X17. A failure that a block does not handle ends the call: on the
    master node, after a tensorboard block that returns, an import of
    [BoltLogger] that raises anything but [ModuleNotFoundError] is raised to
    the caller and neither the hub block nor the file block is entered; so
    is, after a bolt block that returns, an import of [HubLogger] that
    raises anything but [ModuleNotFoundError] or a construction of the hub
    logger that raises outside [Exception], and the file logger is not
    constructed. *)
Theorem get_log_writers_unhandled_failure (h : host) (opts : list (string * pyval))
    (save_location : option string) (tensorboard : bool) (e : exn) :
  is_master h = true ->
  py_bool (getattr_default opts "common.tensorboard_logging" (VBool false)) = Ok tensorboard ->
  (forall e', import_SummaryWriter h = Some e' -> is_ImportError e' = true) ->
  (py_bool (getattr_default opts "common.bolt_logging" (VBool false)) = Ok true ->
   import_BoltLogger h = Some e -> is_ModuleNotFoundError e = false ->
   snd (get_log_writers h opts save_location) = Raise e /\
   Forall (fun ev => hub_event ev = false /\ file_event ev = false)
     (fst (get_log_writers h opts save_location))) /\
  (forall bolt,
   py_bool (getattr_default opts "common.bolt_logging" (VBool false)) = Ok bolt ->
   (forall e', import_BoltLogger h = Some e' -> is_ModuleNotFoundError e' = true) ->
   py_bool (getattr_default opts "common.hub.logging" (VBool false)) = Ok true ->
   (import_HubLogger h = Some e /\ is_ModuleNotFoundError e = false) \/
   (import_HubLogger h = None /\ init_HubLogger h = Some e /\ is_Exception e = false) ->
   snd (get_log_writers h opts save_location) = Raise e /\
   Forall (fun ev => file_event ev = false)
     (fst (get_log_writers h opts save_location))).
Proof.
  intros Hm Htb Hsw.
  destruct (tensorboard_block_ok h opts save_location [] tensorboard Htb Hsw)
    as (t1 & E1 & _).
  pose proof (tensorboard_block_events h opts save_location []) as Ht1.
  rewrite E1 in Ht1. cbn [fst] in Ht1.
  split.
  - intros Hbolt Himp Hnot.
    assert (E2 : forall ws, bolt_block h opts ws =
                   ([Import "corenet.internal.utils.bolt_logger.BoltLogger"], Raise e)).
    { intros ws. unfold bolt_block, try_import. rewrite Hbolt, Himp. cbn.
      now rewrite Hnot. }
    unfold get_log_writers. rewrite Hm. simpl negb. cbv iota.
    rewrite (bind_Ok _ _ _ _ E1), E2. cbn [fst snd bind].
    split; [reflexivity|]. apply Forall_app. split.
    + eapply List.Forall_impl; [|exact Ht1].
      intros ev Hev. pose proof (block_events_disjoint ev). tauto.
    + repeat constructor.
  - intros bolt Hbolt Hbl Hhub Hfail.
    destruct (bolt_block_ok h opts (tensorboard_writers h save_location tensorboard)
                bolt Hbolt Hbl) as (t2 & E2 & _).
    pose proof (bolt_block_events h opts
                  (tensorboard_writers h save_location tensorboard)) as Ht2.
    rewrite E2 in Ht2. cbn [fst] in Ht2.
    assert (E3 : forall ws, hub_block h opts ws =
                   ([Import "corenet.internal.utils.hub_logger.HubLogger"], Raise e)).
    { intros ws. unfold hub_block, try_import. rewrite Hhub.
      destruct Hfail as [(Himp & Hnot) | (Himp & Hinit & Hnot)].
      - rewrite Himp. cbn. now rewrite Hnot.
      - rewrite Himp, Hinit. cbn. now rewrite Hnot. }
    simpl in E1.
    unfold get_log_writers. rewrite Hm. simpl negb. cbv iota.
    rewrite (bind_Ok _ _ _ _ E1), (bind_Ok _ _ _ _ E2), E3. cbn [fst snd bind].
    split; [reflexivity|]. apply Forall_app. split; [|apply Forall_app; split].
    + eapply List.Forall_impl; [|exact Ht1].
      intros ev Hev. pose proof (block_events_disjoint ev). tauto.
    + eapply List.Forall_impl; [|exact Ht2].
      intros ev Hev. pose proof (block_events_disjoint ev). tauto.
    + repeat constructor.
Qed.

Lemma get_log_writers_unhandled_failure_witness :
  snd (get_log_writers (Host true None None None (Some KeyboardInterrupt))
         [("common.hub.logging", VBool true); ("common.file_logging", VBool true)]
         (Some "results")) = Raise KeyboardInterrupt /\
  Forall (fun ev => file_event ev = false)
    (fst (get_log_writers (Host true None None None (Some KeyboardInterrupt))
            [("common.hub.logging", VBool true); ("common.file_logging", VBool true)]
            (Some "results"))).
Proof.
  refine (proj2 (get_log_writers_unhandled_failure
                   (Host true None None None (Some KeyboardInterrupt))
                   [("common.hub.logging", VBool true); ("common.file_logging", VBool true)]
                   (Some "results") false KeyboardInterrupt _ _ _) false _ _ _ _).
  - reflexivity.
  - reflexivity.
  - intros e' [=].
  - reflexivity.
  - intros e' [=].
  - reflexivity.
  - right. repeat split.
Defined.

(** ** The store: allocation, recursion and sharing *)

Lemma store_bind_inv_Ok {A B} (m : Store.SM A) (f : A -> Store.SM B) st st' b :
  Store.bind m f st = (st', Ok b) ->
  exists st1 a, m st = (st1, Ok a) /\ f a st1 = (st', Ok b).
Proof.
  unfold Store.bind. destruct (m st) as [st1 [a|e]]; [|discriminate].
  intros H. now exists st1, a.
Qed.

Lemma store_bind_raise {A B} (m : Store.SM A) (f : A -> Store.SM B) st e :
  snd (m st) = Raise e -> snd (Store.bind m f st) = Raise e.
Proof.
  unfold Store.bind. destruct (m st) as [st1 [a|e']]; simpl; [discriminate|].
  now intros [= ->].
Qed.

(** X18. The dictionary that [flatten] returns is a new object: it is
    none of the objects of the store before the call, the argument and the
    dictionaries nested in it among them, and it is a dictionary of the
    store after the call. *)
Theorem store_flatten_returns_new_dict (fuel : nat) (dictionary : Store.val)
    (parent_key separator : string) (st st' : Store.state) (r : Store.val) :
  Store.flatten fuel dictionary parent_key separator st = (st', Ok r) ->
  exists l flat,
    r = Store.SRef l /\ Store.heap st !! l = None /\
    Store.heap st' !! l = Some (Store.ODict flat).
Proof.
  destruct fuel as [|fuel]; [discriminate|]. cbn [Store.flatten]. intros H.
  apply store_bind_inv_Ok in H as (st1 & items & E1 & H).
  apply store_bind_inv_Ok in H as (st2 & entries & E2 & H).
  apply store_bind_inv_Ok in H as (st3 & [] & E3 & H).
  destruct (keeps_alloc (Store.heap st) (Store.OList []) st (reflexivity _))
    as [Hsub1 Hitems].
  rewrite E1 in Hsub1, Hitems. cbn [fst snd] in Hsub1, Hitems.
  specialize (Hitems items eq_refl).
  destruct (keeps_dict_items (Store.heap st) dictionary st1 Hsub1) as [Hsub2 _].
  rewrite E2 in Hsub2. cbn [fst] in Hsub2.
  destruct (keeps_for_each (Store.heap st) entries
              (Store.flatten_item (Store.flatten fuel) items parent_key separator)
              (fun item => keeps_flatten_item _ _ _ _ _ item
                             (keeps_flatten (Store.heap st) fuel) Hitems)
              st2 Hsub2) as [Hsub3 _].
  rewrite E3 in Hsub3. cbn [fst] in Hsub3.
  unfold Store.new_dict in H.
  apply store_bind_inv_Ok in H as (st4 & o & E4 & H).
  unfold Store.read in E4.
  destruct (Store.heap st3 !! items) as [[d|es]|]; [| |discriminate];
    injection E4 as <- <-; [discriminate|].
  destruct (Store.items_of es) as [kvs|]; [|discriminate].
  rewrite (bind_run _ _ _ _ _ (alloc_run st3 _)) in H. injection H as <- <-.
  eexists _, _. split; [reflexivity|]. cbn [Store.heap]. split.
  - apply (lookup_weaken_None _ (Store.heap st3)); [|exact Hsub3].
    apply not_elem_of_dom, is_fresh.
  - apply lookup_insert_eq.
Qed.

(** X19. [get_batch_size] only reads: it ends on the store it started on,
    nothing allocated, nothing updated, nothing logged, whatever its
    outcome. *)
Theorem store_get_batch_size_reads_only (fuel : nat) (x : Store.val) (st : Store.state) :
  fst (Store.get_batch_size fuel x st) = st.
Proof.
  revert x. induction fuel as [|fuel IH]; intros x; [reflexivity|].
  destruct x; try reflexivity. cbn [Store.get_batch_size].
  unfold Store.bind, Store.read. destruct (Store.heap st !! l) as [[d|es]|];
    try reflexivity.
  destruct (first_modality_key d) as [key|]; [|reflexivity].
  destruct (Dict.get key d); [apply IH | reflexivity].
Qed.

Lemma isinstance_dict_run st l d :
  Store.heap st !! l = Some (Store.ODict d) ->
  Store.isinstance_dict (Store.SRef l) st = (st, Ok true).
Proof. intros E. simpl. now rewrite (bind_run _ _ _ _ _ (read_run _ _ _ E)). Qed.

(** The loop of [flatten] over a dictionary that holds itself, after items
    that are not containers. *)
Lemma flatten_loop_cyclic (rec : Store.val -> string -> string -> Store.SM Store.val)
    items l parent_key separator k rest whole :
  items <> l ->
  (forall st key, Store.heap st !! l = Some (Store.ODict whole) ->
     snd (rec (Store.SRef l) key separator st) = Raise RecursionError) ->
  forall pre, Forall (fun kv : string * Store.val => forall l', snd kv <> Store.SRef l') pre ->
  forall st acc,
    Store.heap st !! items = Some (Store.OList acc) ->
    Store.heap st !! l = Some (Store.ODict whole) ->
    snd (Store.for_each (pre ++ (k, Store.SRef l) :: rest)
           (Store.flatten_item rec items parent_key separator) st) =
    Raise RecursionError.
Proof.
  intros Hne Hrec pre Hpre. induction Hpre as [|[k' v] pre Hv _ IH]; intros st acc Hi Hl.
  - cbn [app Store.for_each]. apply store_bind_raise.
    unfold Store.flatten_item. cbn [fst snd].
    rewrite (bind_run _ _ _ _ _ (isinstance_dict_run _ _ _ Hl)).
    apply store_bind_raise. now apply Hrec.
  - cbn [app Store.for_each]. cbn [snd] in Hv.
    assert (E : Store.flatten_item rec items parent_key separator (k', v) st =
                (Store.State
                   (<[items := Store.OList
                                 (acc ++ [Store.STuple2 (new_key parent_key separator k') v])]>
                      (Store.heap st)) (Store.calls st), Ok tt)).
    { unfold Store.flatten_item, Store.list_append. cbn [fst snd].
      destruct v; try (exact (False_ind _ (Hv _ eq_refl)));
        cbn [Store.isinstance_dict];
        rewrite (bind_run _ _ st st false eq_refl);
        apply (list_extend_run _ _ _ _ Hi). }
    rewrite (bind_run _ _ _ _ _ E).
    apply (IH _ (acc ++ [Store.STuple2 (new_key parent_key separator k') v]));
      cbn [Store.heap].
    + apply lookup_insert_eq.
    + now rewrite lookup_insert_ne.
Qed.

(** X20. A dictionary that holds itself, after items that are not
    containers, cannot be flattened: whatever the recursion limit,
    [flatten] raises [RecursionError]. *)
Theorem store_flatten_cyclic (fuel : nat) :
  forall (st : Store.state) (l : Store.loc) (pre rest : list (string * Store.val))
    (k parent_key separator : string),
    Store.heap st !! l = Some (Store.ODict (pre ++ (k, Store.SRef l) :: rest)) ->
    Forall (fun kv : string * Store.val => forall l', snd kv <> Store.SRef l') pre ->
    snd (Store.flatten fuel (Store.SRef l) parent_key separator st) =
    Raise RecursionError.
Proof.
  induction fuel as [|fuel IH]; intros st l pre rest k parent_key separator Hl Hpre;
    [reflexivity|].
  cbn [Store.flatten].
  rewrite (bind_run _ _ _ _ _ (alloc_run st _)).
  set (items := fresh (dom (Store.heap st))).
  assert (Hne : items <> l).
  { intros E. pose proof (is_fresh (dom (Store.heap st))) as Hf. fold items in Hf.
    apply not_elem_of_dom in Hf. congruence. }
  set (st1 := Store.State (<[items := Store.OList []]> (Store.heap st)) (Store.calls st)).
  assert (Hl1 : Store.heap st1 !! l =
                Some (Store.ODict (pre ++ (k, Store.SRef l) :: rest)))
    by (cbn [st1 Store.heap]; now rewrite lookup_insert_ne).
  rewrite (bind_run _ _ _ _ _ (dict_items_run _ _ _ Hl1)).
  apply store_bind_raise.
  apply (flatten_loop_cyclic (Store.flatten fuel) items l parent_key separator k rest
           (pre ++ (k, Store.SRef l) :: rest) Hne) with (acc := []); try assumption.
  - intros st0 key Hl0. now apply (IH st0 l pre rest k key separator).
  - apply lookup_insert_eq.
Qed.

Lemma store_flatten_cyclic_witness :
  snd (Store.flatten 50 (Store.SRef 1%positive) "" "/"
         (Store.State
            (<[1%positive := Store.ODict [("loss", Store.SFloat 1.5);
                                          ("self", Store.SRef 1%positive)]]> ∅) [])) =
  Raise RecursionError.
Proof.
  apply (store_flatten_cyclic 50 _ 1%positive [("loss", Store.SFloat 1.5)] [] "self").
  - reflexivity.
  - repeat constructor. discriminate.
Defined.

(** The loop over the learning rates and the calls of the log writer leave
    the objects of the store as they are. *)
Lemma heap_for_each {A} (body : A -> Store.SM unit) :
  (forall x st, Store.heap (fst (body x st)) = Store.heap st) ->
  forall l st, Store.heap (fst (Store.for_each l body st)) = Store.heap st.
Proof.
  intros Hbody. induction l as [|x l IH]; intros st; [reflexivity|].
  cbn [Store.for_each]. unfold Store.bind.
  specialize (Hbody x st). destruct (body x st) as [st1 [[]|e]]; cbn [fst] in *.
  - now rewrite IH.
  - exact Hbody.
Qed.

Lemma heap_log_lrs round_float lrs step st :
  Store.heap (fst (Store.log_lrs round_float lrs step st)) = Store.heap st.
Proof.
  unfold Store.log_lrs, Store.bind at 1.
  assert (H : Store.list_elems lrs st = (st, snd (Store.list_elems lrs st))).
  { destruct lrs; try reflexivity. simpl. unfold Store.bind, Store.read.
    now destruct (Store.heap st !! l) as [[d|es]|]. }
  rewrite H. destruct (snd (Store.list_elems lrs st)) as [elems|e]; [|reflexivity].
  apply heap_for_each. intros g st0. unfold Store.bind, Store.lift.
  now destruct (Store.py_round round_float (snd g) 6).
Qed.

(** X21. What [log_metrics] allocates: nothing when [lrs] is a list, and
    the store is then as it was; a list that holds [lrs], and nothing else,
    when it is not. *)
Theorem store_log_metrics_allocation (round_float : float -> Z -> float)
    (lrs train_loss val_loss : Store.val) (epoch : Z)
    (best_metric val_ema_loss ckpt_metric_name train_ckpt_metric val_ckpt_metric
       val_ema_ckpt_metric : Store.val) (st : Store.state) :
  let st' :=
    fst (Store.log_metrics round_float lrs train_loss val_loss epoch best_metric
           val_ema_loss ckpt_metric_name train_ckpt_metric val_ckpt_metric
           val_ema_ckpt_metric st) in
  (Store.isinstance_list lrs st = (st, Ok true) -> Store.heap st' = Store.heap st) /\
  (Store.isinstance_list lrs st = (st, Ok false) ->
   Store.heap st' =
   <[fresh (dom (Store.heap st)) := Store.OList [lrs]]> (Store.heap st)).
Proof.
  assert (Hrest : forall lrs' st0,
            Store.heap
              (fst (Store.bind (Store.log_lrs round_float lrs' epoch)
                      (fun _ => Store.bind (Store.lift (Store.py_round round_float
                                                          best_metric 2))
                                  (fun v => Store.add_scalar "Common/Best Metric" v epoch))
                      st0)) = Store.heap st0).
  { intros lrs' st0. unfold Store.bind at 1.
    pose proof (heap_log_lrs round_float lrs' epoch st0) as H.
    destruct (Store.log_lrs round_float lrs' epoch st0) as [st1 [[]|e]];
      cbn [fst] in *; [|exact H].
    unfold Store.bind, Store.lift.
    now destruct (Store.py_round round_float best_metric 2). }
  cbv zeta. unfold Store.log_metrics, Store.lrs_list. split; intros E.
  - rewrite (bind_run _ _ _ _ _ (bind_run _ _ _ _ _ E)). apply Hrest.
  - rewrite (bind_run _ _ st
               (Store.State (<[fresh (dom (Store.heap st)) := Store.OList [lrs]]>
                               (Store.heap st)) (Store.calls st))
               (Store.SRef (fresh (dom (Store.heap st))))).
    + now rewrite Hrest.
    + rewrite (bind_run _ _ _ _ _ E). now rewrite (bind_run _ _ _ _ _ (alloc_run st _)).
Qed.

Lemma store_log_metrics_allocation_witness :
  Store.heap
    (fst (Store.log_metrics (fun f _ => f) (Store.SFloat 0.5) Store.SNone Store.SNone 3
            (Store.SFloat 71.5) Store.SNone Store.SNone Store.SNone Store.SNone
            Store.SNone (Store.State ∅ []))) =
  <[fresh (dom (∅ : gmap Store.loc Store.obj)) := Store.OList [Store.SFloat 0.5]]> ∅.
Proof.
  apply (store_log_metrics_allocation (fun f _ => f) (Store.SFloat 0.5) Store.SNone
           Store.SNone 3 (Store.SFloat 71.5) Store.SNone Store.SNone Store.SNone
           Store.SNone Store.SNone (Store.State ∅ [])).
  reflexivity.
Defined.

(** ** The two embeddings on an example *)

Lemma flatten_store_refines_witness :
  let st :=
    Store.State
      (<[2%positive := Store.ODict [("total", Store.SFloat 1.5)]]>
         (<[1%positive := Store.ODict [("loss", Store.SRef 2%positive);
                                       ("top1", Store.SInt 0)]]> ∅)) [] in
  exists st' r,
    Store.flatten 2 (Store.SRef 1%positive) "" "/" st = (st', Ok r) /\
    repr (Store.heap st') r
      (VDict (flatten [("loss", VDict [("total", VFloat 1.5)]); ("top1", VInt 0)]
                "" "/")) /\
    Store.calls st' = Store.calls st.
Proof.
  intros st. apply flatten_store_refines.
  - apply (repr_Dict _ 1%positive [("loss", Store.SRef 2%positive);
                                   ("top1", Store.SInt 0)]); [reflexivity|].
    repeat constructor.
    apply (repr_Dict _ 2%positive [("total", Store.SFloat 1.5)]); [reflexivity|].
    repeat constructor.
  - simpl. lia.
Defined.

Lemma get_batch_size_store_refines_witness :
  let st :=
    Store.State
      (<[2%positive := Store.OList [Store.SNone; Store.SNone; Store.SNone]]>
         (<[1%positive := Store.ODict [("label", Store.SInt 1);
                                       ("video", Store.SRef 2%positive)]]> ∅)) [] in
  Store.get_batch_size 2 (Store.SRef 1%positive) st =
  (st, get_batch_size (VDict [("label", VInt 1); ("video", VList [VNone; VNone; VNone])])).
Proof.
  intros st. apply get_batch_size_store_refines.
  - apply (repr_Dict _ 1%positive [("label", Store.SInt 1);
                                   ("video", Store.SRef 2%positive)]); [reflexivity|].
    repeat constructor.
    apply (repr_List _ 2%positive [Store.SNone; Store.SNone; Store.SNone]);
      [reflexivity|]. repeat constructor.
  - simpl. lia.
Defined.

Lemma store_flatten_returns_new_dict_witness :
  let st :=
    Store.State
      (<[2%positive := Store.ODict [("total", Store.SFloat 1.5)]]>
         (<[1%positive := Store.ODict [("loss", Store.SRef 2%positive);
                                       ("top1", Store.SInt 0)]]> ∅)) [] in
  exists l flat,
    Store.SRef 6%positive = Store.SRef l /\ Store.heap st !! l = None /\
    Store.heap (fst (Store.flatten 2 (Store.SRef 1%positive) "" "/" st)) !! l =
    Some (Store.ODict flat).
Proof.
  intros st.
  apply (store_flatten_returns_new_dict 2 (Store.SRef 1%positive) "" "/" st).
  vm_compute. reflexivity.
Defined.
